(** * Telegraf configuration generator: MQTT topic validation and sanitization

    A shallow embedding of [telegraf_conf_generator.py].  The development
    follows the source top-down: the Python built-ins the module relies
    on ([str.startswith], [in], [str.replace], [str.split],
    [str.encode('utf-8')]), the module constant
    [MQTT_TOPIC_EXCLUSION_CHARS], the two methods [validate_mqtt_topic] and
    [sanitize_mqtt_topic], the constructor, and [generate_telegraf_config]
    with its CSV reading loop and the text it writes.  [run] and [main]
    only add logging, timing and the hard-coded settings. *)

From Stdlib Require Import NArith Ascii String.
From stdpp Require Import base list gmap.

Local Open Scope N_scope.

(** ** Python values *)

(** A Python [str] is a sequence of Unicode code points.  Code points are
    kept as [N]; the surrogate range and everything above [0x10FFFF] is
    what [encode('utf-8')] refuses. *)
Abbreviation str := (list N).

(** String literals of the source, written as Rocq (ASCII) literals. *)
Definition py (s : string) : str :=
  map N_of_ascii (list_ascii_of_string s).

(** The exceptions the modelled code can raise. *)
Inductive exn : Set :=
| UnicodeEncodeError
| ValueError
| AttributeError
| KeyError.

Inductive result (A : Type) : Type :=
| Ok (a : A)
| Raise (e : exn).
Arguments Ok {A} a.
Arguments Raise {A} e.

(** Sequencing: an exception raised by the first computation propagates. *)
#[global] Instance result_bind : MBind result := fun A B k r =>
  match r with
  | Ok a => k a
  | Raise e => Raise e
  end.

Definition result_map {A B} (f : A -> B) (r : result A) : result B :=
  a ← r; Ok (f a).

Definition is_ok {A} (r : result A) : bool :=
  match r with
  | Ok _ => true
  | Raise _ => false
  end.

(** ** Built-in string operations *)

Module Py.

(** [s.startswith(prefix)] *)
Fixpoint startswith (s prefix : str) {struct prefix} : bool :=
  match prefix, s with
  | [], _ => true
  | p :: prefix', c :: s' => (c =? p) && startswith s' prefix'
  | _ :: _, [] => false
  end.

(** [sub in s]: substring containment. *)
Fixpoint contains (sub s : str) : bool :=
  startswith s sub ||
  match s with
  | [] => false
  | _ :: s' => contains sub s'
  end.

(** [s.replace(old, new)]: every non-overlapping occurrence of [old],
    scanning from the left.  [skip] counts the characters of an occurrence
    already matched that are still to be dropped. *)
Fixpoint replace_from (old new : str) (skip : nat) (s : str) : str :=
  match s with
  | [] => []
  | c :: s' =>
      match skip with
      | S k => replace_from old new k s'
      | O =>
          if startswith s old
          then new ++ replace_from old new (length old - 1) s'
          else c :: replace_from old new 0 s'
      end
  end.

Definition replace (s old new : str) : str :=
  match old with
  | [] => new ++ flat_map (fun c => c :: new) s
  | _ :: _ => replace_from old new 0 s
  end.

(** [s.split(sep)]: the pieces between the non-overlapping occurrences of
    [sep]; an empty separator raises [ValueError]. *)
Fixpoint split_from (sep : str) (skip : nat) (s : str) : list str :=
  match s with
  | [] => [[]]
  | c :: s' =>
      match skip with
      | S k => split_from sep k s'
      | O =>
          if startswith s sep
          then [] :: split_from sep (length sep - 1) s'
          else
            match split_from sep 0 s' with
            | piece :: pieces => (c :: piece) :: pieces
            | [] => [[c]]
            end
      end
  end.

Definition split (s sep : str) : result (list str) :=
  match sep with
  | [] => Raise ValueError
  | _ :: _ => Ok (split_from sep 0 s)
  end.

(** [s.encode('utf-8')], one code point at a time.  Lone surrogates are
    not encodable; a number above [0x10FFFF] is no character at all and is
    refused the same way. *)
Definition encode_char (c : N) : result (list N) :=
  if c <? 0x80 then Ok [c]
  else if c <? 0x800 then
    Ok [N.lor 0xC0 (N.shiftr c 6); N.lor 0x80 (N.land c 0x3F)]
  else if (0xD800 <=? c) && (c <=? 0xDFFF) then Raise UnicodeEncodeError
  else if c <? 0x10000 then
    Ok [N.lor 0xE0 (N.shiftr c 12);
        N.lor 0x80 (N.land (N.shiftr c 6) 0x3F);
        N.lor 0x80 (N.land c 0x3F)]
  else if c <? 0x110000 then
    Ok [N.lor 0xF0 (N.shiftr c 18);
        N.lor 0x80 (N.land (N.shiftr c 12) 0x3F);
        N.lor 0x80 (N.land (N.shiftr c 6) 0x3F);
        N.lor 0x80 (N.land c 0x3F)]
  else Raise UnicodeEncodeError.

Fixpoint encode (s : str) : result (list N) :=
  match s with
  | [] => Ok []
  | c :: s' =>
      b ← encode_char c;
      bs ← encode s';
      Ok (b ++ bs)
  end.

End Py.

(** A string that [encode('utf-8')] accepts: every code point is a Unicode
    scalar value. *)
Definition scalar_value (c : N) : bool :=
  (c <? 0x110000) && negb ((0xD800 <=? c) && (c <=? 0xDFFF)).

Definition utf8_string (s : str) : bool := forallb scalar_value s.

(** ** Module constants *)

(** MQTT Topic Character Exclusion List *)
Definition MQTT_TOPIC_EXCLUSION_CHARS : list str :=
  [ py "+"    (* single-level wildcard *)
  ; py "#"    (* multi-level wildcard *)
  ; py "*"    (* SMF wildcard *)
  ; py ">"    (* SMF wildcard *)
  ; py "$"    (* when used at start of topic: reserved for the server *)
  ].

(** ** TelegrafConfigGenerator.validate_mqtt_topic *)

(** The condition shared by both methods:
    [t.startswith("$") and not (t.startswith("$SYS/") or
     t.startswith("$share/") or t.startswith("$noexport/"))]. *)
Definition leading_dollar_unreserved (t : str) : bool :=
  Py.startswith t (py "$") &&
  negb (Py.startswith t (py "$SYS/") ||
        Py.startswith t (py "$share/") ||
        Py.startswith t (py "$noexport/")).

Definition validate_mqtt_topic (topic_name : str) : result bool :=
  (* Check for reserved characters *)
  if existsb (fun char => Py.contains char topic_name)
       MQTT_TOPIC_EXCLUSION_CHARS
  then Ok false
  (* Check for leading $ (allowed only for system topics) *)
  else if leading_dollar_unreserved topic_name then Ok false
  else
    (* Check length restriction (250 bytes max) *)
    encoded ← Py.encode topic_name;
    if (250 <? length encoded)%nat then Ok false
    else
      (* Check for level count restriction (128 levels max) *)
      levels ← Py.split topic_name (py "/");
      if (128 <? length levels)%nat then Ok false
      else Ok true.

(** ** TelegrafConfigGenerator.sanitize_mqtt_topic *)

(** The loop [for char in MQTT_TOPIC_EXCLUSION_CHARS:
    sanitized_name = sanitized_name.replace(char, '_')]. *)
Definition replace_restricted (topic_name : str) : str :=
  fold_left (fun sanitized_name char =>
               Py.replace sanitized_name char (py "_"))
    MQTT_TOPIC_EXCLUSION_CHARS topic_name.

Definition sanitize_mqtt_topic (topic_name : str) : str :=
  (* Replace restricted characters *)
  let sanitized_name := replace_restricted topic_name in
  (* Handle leading $ if not a system topic *)
  if leading_dollar_unreserved sanitized_name
  then py "_" ++ drop 1 sanitized_name
  else sanitized_name.

(** [len(s.encode('utf-8'))] and [len(s.split('/'))], the two measures
    [validate_mqtt_topic] compares with its limits. *)
Definition utf8_len (s : str) : result nat :=
  result_map length (Py.encode s).

Definition level_count (s : str) : result nat :=
  result_map length (Py.split s (py "/")).

(** ** TelegrafConfigGenerator.generate_telegraf_config: reading the nodes *)

(** A value of a [csv.DictReader] row: the text of the cell, or [None]
    when the line is shorter than the header. *)
Inductive cell : Type :=
| CellStr (s : str)
| CellNone.

(** The dictionary appended to [nodes] for one record. *)
Record node : Type := Node {
  node_id : cell;
  custom_name : cell;
  namespace : str;
  identifier : str;
  identifier_type : str;
  mqtt_topic : str
}.

(** What the loop mutates: the local list [nodes] and the two counters of
    [self]. *)
Record reader_state : Type := ReaderState {
  nodes : list node;
  _total_nodes_processed : nat;
  _topics_sanitized : nat
}.

(** The state set up by [__init__], with [nodes = []]. *)
Definition initial_state : reader_state :=
  {| nodes := []; _total_nodes_processed := 0; _topics_sanitized := 0 |}.

(** Statements that mutate the state and may raise.  An exception leaves
    the mutations done so far in place. *)
Definition gen (A : Type) : Type := reader_state -> reader_state * result A.

#[global] Instance gen_ret : MRet gen := fun A a st => (st, Ok a).

#[global] Instance gen_bind : MBind gen := fun A B k m st =>
  match m st with
  | (st', Ok a) => k a st'
  | (st', Raise e) => (st', Raise e)
  end.

Definition lift {A} (r : result A) : gen A := fun st => (st, r).

(** [row[key]] *)
Definition getitem (row : gmap str cell) (key : str) : result cell :=
  match row !! key with
  | Some v => Ok v
  | None => Raise KeyError
  end.

(** [v.split(sep)] on a cell: [None] has no attribute [split]. *)
Definition cell_split (v : cell) (sep : str) : result (list str) :=
  match v with
  | CellStr s => Py.split s sep
  | CellNone => Raise AttributeError
  end.

(** [self._topics_sanitized += 1] *)
Definition incr_topics_sanitized : gen unit := fun st =>
  ({| nodes := nodes st;
      _total_nodes_processed := _total_nodes_processed st;
      _topics_sanitized := S (_topics_sanitized st) |}, Ok ()).

(** [self._total_nodes_processed += 1] *)
Definition incr_total_nodes_processed : gen unit := fun st =>
  ({| nodes := nodes st;
      _total_nodes_processed := S (_total_nodes_processed st);
      _topics_sanitized := _topics_sanitized st |}, Ok ()).

(** [nodes.append(n)] *)
Definition nodes_append (n : node) : gen unit := fun st =>
  ({| nodes := nodes st ++ [n];
      _total_nodes_processed := _total_nodes_processed st;
      _topics_sanitized := _topics_sanitized st |}, Ok ()).

(** The candidate topic of a record: [f"telegraf/opcua/{identifier}"]. *)
Definition candidate_topic (identifier : str) : str :=
  py "telegraf/opcua/" ++ identifier.

(** The body of [for row in reader:].  Log calls are left out; [continue]
    and the [else] branch finish the row without touching the state. *)
Definition process_row (row : gmap str cell) : gen unit :=
  (* Ensure required columns exist *)
  if forallb (fun key => bool_decide (is_Some (row !! key)))
       [py "NodeId"; py "CustomName"]
  then
    (* Extract namespace and identifier from NodeId *)
    row_node_id ← lift (getitem row (py "NodeId"));
    node_id_parts ← lift (cell_split row_node_id (py ";"));
    match node_id_parts with
    | [part0; part1] =>
        let namespace := Py.replace part0 (py "ns=") (py "") in
        let identifier := Py.replace part1 (py "s=") (py "") in
        (* Generate MQTT topic name and validate/sanitize it *)
        let mqtt_topic := candidate_topic identifier in
        valid ← lift (validate_mqtt_topic mqtt_topic);
        mqtt_topic ←
          (if negb valid
           then
             _ ← incr_topics_sanitized;
             mret (sanitize_mqtt_topic mqtt_topic)
           else mret mqtt_topic);
        node_id ← lift (getitem row (py "NodeId"));
        custom_name ← lift (getitem row (py "CustomName"));
        _ ← nodes_append
              {| node_id := node_id;
                 custom_name := custom_name;
                 namespace := namespace;
                 identifier := identifier;
                 identifier_type := py "s";
                 mqtt_topic := mqtt_topic |};
        incr_total_nodes_processed
    | _ => mret ()
    end
  else mret ().

(** [for row in reader: ...] inside the [try]: the first exception ends
    the loop (the [except] clause logs it and returns). *)
Fixpoint read_rows (rows : list (gmap str cell)) : gen unit :=
  match rows with
  | [] => mret ()
  | row :: rows' => _ ← process_row row; read_rows rows'
  end.

(** Whether the candidate topic of a stored node passed or failed
    [validate_mqtt_topic]. *)
Definition candidate_accepted (n : node) : bool :=
  match validate_mqtt_topic (candidate_topic (identifier n)) with
  | Ok true => true
  | _ => false
  end.

Definition candidate_rejected (n : node) : bool :=
  match validate_mqtt_topic (candidate_topic (identifier n)) with
  | Ok false => true
  | _ => false
  end.

(** A record with both required columns, for the examples below. *)
Definition csv_record (node_id_text name : string) : gmap str cell :=
  {[ py "NodeId" := CellStr (py node_id_text);
     py "CustomName" := CellStr (py name) ]}.

(** ** TelegrafConfigGenerator: the object and its constructor *)

(** The attributes of [self].  [_start_time] is left out: only [run] uses
    it, for the duration it logs. *)
Module Self.

Record t : Type := Make {
  csv_file_path : str;
  output_file_path : str;
  mqtt_broker : str;
  opcua_endpoint : str;
  influxdb_url : str;
  _total_nodes_processed : nat;
  _topics_sanitized : nat
}.

End Self.

(** [__init__]: both paths must be non-empty; the counters start at zero. *)
Definition init (csv_file_path output_file_path mqtt_broker opcua_endpoint
                 influxdb_url : str) : result Self.t :=
  if bool_decide (csv_file_path = []) then Raise ValueError
  else if bool_decide (output_file_path = []) then Raise ValueError
  else Ok {| Self.csv_file_path := csv_file_path;
             Self.output_file_path := output_file_path;
             Self.mqtt_broker := mqtt_broker;
             Self.opcua_endpoint := opcua_endpoint;
             Self.influxdb_url := influxdb_url;
             Self._total_nodes_processed := 0;
             Self._topics_sanitized := 0 |}.

(** ** TelegrafConfigGenerator.generate_telegraf_config: writing the file *)

(** A literal of the source that contains double quotes: the backquote,
    which the source never uses, stands for the double quote. *)
Definition tpl (s : string) : str :=
  map (fun c => if c =? 96 then 34 else c) (py s).

(** How an f-string prints a cell: [None] prints as its name. *)
Definition format_cell (v : cell) : str :=
  match v with
  | CellStr s => s
  | CellNone => py "None"
  end.

(** Add agent section (line 156). *)
Definition agent_section : str :=
  tpl "# Telegraf Configuration for OPC UA Monitoring
# Generated from CSV file

###############################################################################
#                            AGENT SETTINGS                                   #
###############################################################################
[agent]
  interval = `10s`
  round_interval = true
  metric_batch_size = 1000
  metric_buffer_limit = 10000
  collection_jitter = `0s`
  flush_interval = `10s`
  flush_jitter = `0s`
  precision = ``
  hostname = ``
  omit_hostname = true
".

(** Add OPC UA input plugin (line 176). *)
Definition opcua_input_section (self : Self.t) : str :=
  tpl "
###############################################################################
#                            INPUT PLUGINS                                    #
###############################################################################

# Read data from an OPC UA server
[[inputs.opcua]]
  ## OPC UA Server Endpoint URL.
  endpoint = `"
  ++ Self.opcua_endpoint self
  ++ tpl "` # Replace with your OPC UA Server URL

  ## Security policy: `None`, `Basic128Rsa15`, `Basic256`, `Basic256Sha256`.
  security_policy = `None`
  ## Security mode: `None`, `Sign`, `SignAndEncrypt`.
  security_mode = `None`

  ## Path to certificate file (Required if SecurityMode != `None`).
  certificate = ``
  ## Path to private key file (Required if SecurityMode != `None`).
  private_key = ``

  ## Authentication method: `Anonymous`, `UserName`, `Certificate`.
  auth_method = `Anonymous`
  # username = `` # Required if AuthMethod=`UserName`
  # password = `` # Required if AuthMethod=`UserName`

  ## Connection timeout for establishing the OPC UA connection.
  connect_timeout = `10s`
  ## Request timeout for individual OPC UA read requests.
  request_timeout = `5s`

  ## Node Configuration: Define the OPC UA nodes to read data from.
".

(** Add node configurations: one stanza per node (line 211). *)
Definition opcua_node_stanza (n : node) : str :=
  tpl "  [[inputs.opcua.nodes]]
    name = `"
  ++ format_cell (custom_name n)
  ++ tpl "`
    namespace = `"
  ++ namespace n
  ++ tpl "`
    identifier_type = `"
  ++ identifier_type n
  ++ tpl "`
    identifier = '''"
  ++ identifier n
  ++ tpl "'''
".

(** Add InfluxDB output plugin (line 219). *)
Definition influxdb_output_section (self : Self.t) : str :=
  tpl "
###############################################################################
#                            OUTPUT PLUGINS                                   #
###############################################################################

# --- InfluxDB v2 Output ---
[[outputs.influxdb_v2]]
  urls = [`"
  ++ Self.influxdb_url self
  ++ tpl "`] # Replace with your InfluxDB URL
  token = `$DOCKER_INFLUXDB_INIT_ADMIN_TOKEN` # Replace with your InfluxDB Token or env var
  organization = `$DOCKER_INFLUXDB_INIT_ORG` # Replace with your InfluxDB Org or env var
  bucket = `OPC UA`
".

(** Add MQTT output plugins for each node: the heading (line 233). *)
Definition mqtt_outputs_heading : str :=
  tpl "
# --- MQTT Outputs: One per Node (Filtering on 'id' tag) ---
".

(** ... and one stanza per node (line 238). *)
Definition mqtt_output_stanza (self : Self.t) (n : node) : str :=
  tpl "# MQTT Output for Node: "
  ++ identifier n
  ++ tpl "
[[outputs.mqtt]]
  servers = [`"
  ++ Self.mqtt_broker self
  ++ tpl "`] # Replace with your MQTT broker address
  topic = `"
  ++ mqtt_topic n
  ++ tpl "`
  tagpass = { id = [`ns="
  ++ namespace n
  ++ tpl ";s="
  ++ identifier n
  ++ tpl "`] }
  qos = 0
  retain = false
  data_format = `json`
".

(** The list [config] once every [append] is done. *)
Definition build_config (self : Self.t) (nodes : list node) : list str :=
  [agent_section; opcua_input_section self]
  ++ map opcua_node_stanza nodes
  ++ [influxdb_output_section self; mqtt_outputs_heading]
  ++ map (mqtt_output_stanza self) nodes.

(** The state the reading loop starts in: [nodes = []] and the counters
    of [self]. *)
Definition enter_loop (self : Self.t) : reader_state :=
  {| nodes := [];
     _total_nodes_processed := Self._total_nodes_processed self;
     _topics_sanitized := Self._topics_sanitized self |}.

(** [self] with the counters the loop left. *)
Definition leave_loop (self : Self.t) (st : reader_state) : Self.t :=
  {| Self.csv_file_path := Self.csv_file_path self;
     Self.output_file_path := Self.output_file_path self;
     Self.mqtt_broker := Self.mqtt_broker self;
     Self.opcua_endpoint := Self.opcua_endpoint self;
     Self.influxdb_url := Self.influxdb_url self;
     Self._total_nodes_processed := _total_nodes_processed st;
     Self._topics_sanitized := _topics_sanitized st |}.

(** What [generate_telegraf_config] finds at [self.csv_file_path]: no
    file ([os.path.exists] is false), or a file.  For a file, [rows] are
    the rows the [DictReader] yields and [reader_fails] tells whether
    opening the file or advancing the reader then raises ([OSError],
    [UnicodeDecodeError], [csv.Error]) instead of ending the iteration; a
    file that cannot be opened at all has no rows and [reader_fails] set. *)
Inductive csv_file : Type :=
| CsvMissing
| CsvRows (rows : list (gmap str cell)) (reader_fails : bool).

(** [generate_telegraf_config].  [output_writable] tells whether
    [self.output_file_path] can be opened for writing and written to.  The
    result is [self] afterwards and the text that [f.write] puts in the
    file.  Nothing is written when the CSV file is missing, when the loop
    or the reader raises (the first [except] clause returns), or when
    writing fails (the second [except] clause): [f.write] encodes the
    text as UTF-8 and raises on a text that cannot be encoded. *)
Definition generate_telegraf_config (self : Self.t) (csv : csv_file)
    (output_writable : bool) : Self.t * option str :=
  match csv with
  | CsvMissing => (self, None)
  | CsvRows rows reader_fails =>
      match read_rows rows (enter_loop self) with
      | (st, Raise _) => (leave_loop self st, None)
      | (st, Ok _) =>
          let self' := leave_loop self st in
          if reader_fails then (self', None)
          else
            let text := concat (build_config self' (nodes st)) in
            match Py.encode text with
            | Raise _ => (self', None)
            | Ok _ =>
                if output_writable then (self', Some text)
                else (self', None)
            end
      end
  end.

(** Rows the loop can take without raising: a NodeId that is present is
    text, and UTF-8 text. *)
Definition node_id_utf8 (row : gmap str cell) : bool :=
  match row !! py "NodeId" with
  | Some (CellStr s) => utf8_string s
  | Some CellNone => false
  | None => true
  end.

(** A line shorter than the header that leaves NodeId without a value. *)
Definition short_line (row : gmap str cell) : bool :=
  match row !! py "NodeId", row !! py "CustomName" with
  | Some CellNone, Some _ => true
  | _, _ => false
  end.

(** Records as a UTF-8 file gives them: a NodeId that is present is
    UTF-8 text, and so is a CustomName that has a value. *)
Definition cells_utf8 (row : gmap str cell) : bool :=
  node_id_utf8 row &&
  match row !! py "CustomName" with
  | Some (CellStr s) => utf8_string s
  | _ => true
  end.

(** The three settings that go into the text. *)
Definition settings_utf8 (self : Self.t) : bool :=
  utf8_string (Self.mqtt_broker self) &&
  utf8_string (Self.opcua_endpoint self) &&
  utf8_string (Self.influxdb_url self).

(** The fields of a node that go into the text. *)
Definition node_utf8 (n : node) : bool :=
  utf8_string (format_cell (custom_name n)) &&
  utf8_string (namespace n) &&
  utf8_string (identifier n) &&
  utf8_string (identifier_type n) &&
  utf8_string (mqtt_topic n).

(** The number of [;] in a NodeId. *)
Definition semicolon_count (s : str) : nat :=
  length (filter (fun c => c = 59) s).

(** ** main: the hard-coded settings *)

(** The object [main] builds, as [__init__] returns it. *)
Definition hardcoded_generator : Self.t :=
  {| Self.csv_file_path := py "nodes_output_new.csv";
     Self.output_file_path := py "telegraf.conf";
     Self.mqtt_broker := py "tcp://mosquitto:1883";
     Self.opcua_endpoint := py "opc.tcp://100.94.111.58:4841";
     Self.influxdb_url := py "http://64.226.126.250:8086";
     Self._total_nodes_processed := 0;
     Self._topics_sanitized := 0 |}.

(** A line that stops before the NodeId column, for the examples below. *)
Definition csv_short_record : gmap str cell :=
  {[ py "NodeId" := CellNone; py "CustomName" := CellNone ]}.

(** Two complete records, the second with a [#] in its identifier. *)
Definition sample_rows : list (gmap str cell) :=
  [csv_record "ns=2;s=Line1/Temp" "Line 1"; csv_record "ns=2;s=Temp#1" "Temp"].

(** ** Reference descriptions used in the statements *)

(** The characters of the exclusion list: [+ # * > $]. *)
Definition exclusion_characters : list N := py "+#*>$".

Definition is_exclusion_character (c : N) : bool :=
  existsb (N.eqb c) exclusion_characters.

(** Replacing every occurrence of an exclusion character with [_], and
    nothing else. *)
Definition underscore_if_excluded (c : N) : N :=
  if is_exclusion_character c then 95 else c.

Definition replace_exclusion_characters (s : str) : str :=
  map underscore_if_excluded s.

(** The identifier the loop takes from a record, when it gets as far as
    building a candidate topic: both columns are there and the NodeId is a
    text with exactly two parts around [;]. *)
Definition row_identifier (row : gmap str cell) : option str :=
  match row !! py "NodeId", row !! py "CustomName" with
  | Some (CellStr s), Some _ =>
      match Py.split s (py ";") with
      | Ok [_; part1] => Some (Py.replace part1 (py "s=") (py ""))
      | _ => None
      end
  | _, _ => None
  end.

(** The topic that should be stored for a record: its candidate when
    [validate_mqtt_topic] accepts it, the sanitized candidate when it
    rejects it, none when there is no candidate or no verdict. *)
Definition expected_topic (row : gmap str cell) : option str :=
  match row_identifier row with
  | Some id =>
      match validate_mqtt_topic (candidate_topic id) with
      | Ok true => Some (candidate_topic id)
      | Ok false => Some (sanitize_mqtt_topic (candidate_topic id))
      | Raise _ => None
      end
  | None => None
  end.

(** The record has a candidate and the candidate fails validation. *)
Definition candidate_fails (row : gmap str cell) : bool :=
  match row_identifier row with
  | Some id =>
      match validate_mqtt_topic (candidate_topic id) with
      | Ok false => true
      | _ => false
      end
  | None => false
  end.

(** The record makes the loop body raise: its NodeId has no value, or
    [validate_mqtt_topic] raises on its candidate. *)
Definition row_raises (row : gmap str cell) : bool :=
  short_line row ||
  match row_identifier row with
  | Some id =>
      match validate_mqtt_topic (candidate_topic id) with
      | Raise _ => true
      | Ok _ => false
      end
  | None => false
  end.

(** The records before the first one that raises: those the loop goes
    through. *)
Fixpoint rows_read (rows : list (gmap str cell)) : list (gmap str cell) :=
  match rows with
  | [] => []
  | row :: rows' => if row_raises row then [] else row :: rows_read rows'
  end.

(** The number of [/] in a string. *)
Definition slash_count (s : str) : nat :=
  length (filter (fun c => c = 47) s).

(** * Properties *)

(** ** The built-ins on the inputs the module gives them *)

Section Builtins.

Implicit Types (s prefix : str) (a b c : N).

Lemma startswith_prefix_of s prefix :
  Py.startswith s prefix = true <-> prefix `prefix_of` s.
Proof.
  revert s. induction prefix as [|p prefix IH]; intros s; simpl.
  - split; [intros _; apply prefix_nil | done].
  - destruct s as [|c s].
    + split; [done | intros H; by apply prefix_nil_not in H].
    + rewrite andb_true_iff, IH, N.eqb_eq. split.
      * intros [-> H]. by apply prefix_cons.
      * intros H. split.
        -- symmetry. by apply prefix_cons_inv_1 in H.
        -- by apply prefix_cons_inv_2 in H.
Qed.

Lemma startswith_single s a :
  Py.startswith s [a] = match s with [] => false | c :: _ => c =? a end.
Proof. destruct s as [|c s]; simpl; [done | by rewrite andb_true_r]. Qed.

Lemma contains_single a s :
  Py.contains [a] s = existsb (fun c => c =? a) s.
Proof.
  induction s as [|c s IH].
  - reflexivity.
  - cbn [Py.contains existsb]. by rewrite startswith_single, IH.
Qed.

Lemma replace_single s a b :
  Py.replace s [a] [b] = map (fun c => if c =? a then b else c) s.
Proof.
  unfold Py.replace. induction s as [|c s IH]; [done|].
  cbn [Py.replace_from map]. rewrite startswith_single.
  destruct (c =? a); simpl; by rewrite IH.
Qed.

Lemma split_single_length s a :
  length (Py.split_from [a] 0 s) = S (length (filter (fun c => c = a) s)).
Proof.
  induction s as [|c s IH]; [done|].
  cbn [Py.split_from]. rewrite startswith_single, filter_cons.
  destruct (N.eqb_spec c a) as [->|Hne].
  - rewrite decide_True by done. simpl. by rewrite IH.
  - rewrite decide_False by done.
    destruct (Py.split_from [a] 0 s) as [|piece pieces]; [done|].
    simpl in *. done.
Qed.

Lemma split_from_nonempty sep skip s : Py.split_from sep skip s <> [].
Proof.
  revert skip. induction s as [|c s IH]; intros skip; [done|].
  simpl. destruct skip; [|apply IH].
  destruct (Py.startswith _ _); [done|].
  by destruct (Py.split_from sep 0 s).
Qed.

End Builtins.

(** ** UTF-8 encoding *)

Section Encoding.

Implicit Types (s : str) (c : N).

Lemma encode_char_scalar c :
  scalar_value c = true <-> exists b, Py.encode_char c = Ok b.
Proof.
  unfold scalar_value, Py.encode_char.
  destruct (N.ltb_spec c 0x80), (N.ltb_spec c 0x800),
    (N.leb_spec 0xD800 c), (N.leb_spec c 0xDFFF),
    (N.ltb_spec c 0x10000), (N.ltb_spec c 0x110000);
    simpl; try lia; split; eauto; try done; intros [b Hb]; done.
Qed.

Lemma encode_scalar s :
  utf8_string s = true <-> exists bs, Py.encode s = Ok bs.
Proof.
  unfold utf8_string. induction s as [|c s IH]; simpl.
  - split; eauto.
  - rewrite andb_true_iff, IH, encode_char_scalar. split.
    + intros [[b ->] [bs ->]]. simpl. eauto.
    + destruct (Py.encode_char c) as [b|]; simpl; [|by intros [? ?]].
      destruct (Py.encode s) as [bs|]; simpl; [|by intros [? ?]].
      eauto.
Qed.

Lemma utf8_len_cons c s :
  utf8_len (c :: s) =
  n ← result_map length (Py.encode_char c); m ← utf8_len s; Ok (n + m)%nat.
Proof.
  unfold utf8_len, result_map. simpl.
  destruct (Py.encode_char c) as [b|]; simpl; [|done].
  destruct (Py.encode s) as [bs|]; simpl; [|done].
  by rewrite length_app.
Qed.

Lemma utf8_len_map (f : N -> N) s :
  (forall c, result_map length (Py.encode_char (f c)) =
             result_map length (Py.encode_char c)) ->
  utf8_len (map f s) = utf8_len s.
Proof.
  intros Hf. induction s as [|c s IH]; [done|].
  cbn [map]. by rewrite !utf8_len_cons, Hf, IH.
Qed.

Lemma utf8_string_len s :
  utf8_string s = true <-> exists n, utf8_len s = Ok n.
Proof.
  rewrite encode_scalar. unfold utf8_len, result_map.
  destruct (Py.encode s) as [bs|]; simpl; split; eauto; by intros [? ?].
Qed.

End Encoding.

(** ** The exclusion characters *)

Section Exclusion.

Implicit Types (s : str) (c : N).

Lemma is_exclusion_character_iff c :
  is_exclusion_character c = true <-> c ∈ exclusion_characters.
Proof.
  unfold is_exclusion_character. rewrite existsb_exists. split.
  - intros (x & Hin & Heq). apply N.eqb_eq in Heq. subst x.
    by apply list_elem_of_In.
  - intros Hin. exists c. split; [by apply list_elem_of_In | apply N.eqb_refl].
Qed.

Lemma is_exclusion_character_unfold c :
  is_exclusion_character c =
  (c =? 43) || ((c =? 35) || ((c =? 42) || ((c =? 62) || (c =? 36)))).
Proof.
  unfold is_exclusion_character.
  change exclusion_characters with [43; 35; 42; 62; 36].
  cbn [existsb]. by rewrite orb_false_r.
Qed.

Lemma existsb_orb {A} (p q : A -> bool) (l : list A) :
  existsb (fun x => p x || q x) l = existsb p l || existsb q l.
Proof.
  induction l as [|x l IH]; [done|].
  cbn [existsb]. rewrite IH.
  by destruct (p x), (q x), (existsb p l), (existsb q l).
Qed.

Lemma exclusion_check s :
  existsb (fun char => Py.contains char s) MQTT_TOPIC_EXCLUSION_CHARS =
  existsb is_exclusion_character s.
Proof.
  transitivity
    (existsb (fun c => (c =? 43) || ((c =? 35) || ((c =? 42) ||
                       ((c =? 62) || (c =? 36))))) s).
  - rewrite !existsb_orb.
    change MQTT_TOPIC_EXCLUSION_CHARS with [[43]; [35]; [42]; [62]; [36]].
    cbn [existsb]. by rewrite !contains_single, orb_false_r.
  - induction s as [|c s IH]; [done|].
    cbn [existsb]. by rewrite IH, is_exclusion_character_unfold.
Qed.

Lemma no_exclusion_character s :
  existsb is_exclusion_character s = false <->
  forall c, c ∈ s -> c ∉ exclusion_characters.
Proof.
  rewrite <- not_true_iff_false, existsb_exists. split.
  - intros H c Hc Hex. apply H. exists c.
    split; [by apply list_elem_of_In | by apply is_exclusion_character_iff].
  - intros H (c & Hc & Hex). apply (H c).
    + by apply list_elem_of_In.
    + by apply is_exclusion_character_iff.
Qed.

Lemma underscore_if_excluded_cases c :
  (is_exclusion_character c = true /\ c < 0x80 /\ c <> 47 /\
   underscore_if_excluded c = 95) \/
  (is_exclusion_character c = false /\ underscore_if_excluded c = c).
Proof.
  unfold underscore_if_excluded. rewrite is_exclusion_character_unfold.
  destruct (N.eqb_spec c 43), (N.eqb_spec c 35), (N.eqb_spec c 42),
    (N.eqb_spec c 62), (N.eqb_spec c 36); subst; simpl;
    first [ by right | left; repeat split; done ].
Qed.

Lemma underscore_not_excluded c :
  is_exclusion_character (underscore_if_excluded c) = false.
Proof.
  destruct (underscore_if_excluded_cases c) as [(_ & _ & _ & ->)|[H ->]]; done.
Qed.

End Exclusion.

(** ** The two methods in closed form *)

Section Methods.

Implicit Types (s : str) (c : N).

Lemma level_count_slashes s : level_count s = Ok (S (slash_count s)).
Proof.
  unfold level_count, result_map, slash_count.
  change (py "/") with [47]. simpl. by rewrite split_single_length.
Qed.

Lemma validate_closed_form s :
  validate_mqtt_topic s =
  if existsb is_exclusion_character s then Ok false
  else if leading_dollar_unreserved s then Ok false
  else
    n ← utf8_len s;
    if (250 <? n)%nat then Ok false
    else if (128 <? S (slash_count s))%nat then Ok false
    else Ok true.
Proof.
  unfold validate_mqtt_topic. rewrite exclusion_check.
  destruct (existsb is_exclusion_character s); [done|].
  destruct (leading_dollar_unreserved s); [done|].
  unfold utf8_len, result_map.
  destruct (Py.encode s) as [encoded|]; simpl; [|done].
  destruct (250 <? length encoded)%nat; [done|].
  change (py "/") with [47]. simpl. by rewrite split_single_length.
Qed.

Lemma replace_restricted_closed_form s :
  replace_restricted s = replace_exclusion_characters s.
Proof.
  unfold replace_restricted, replace_exclusion_characters.
  change MQTT_TOPIC_EXCLUSION_CHARS with [[43]; [35]; [42]; [62]; [36]].
  change (py "_") with [95]. cbn [fold_left].
  rewrite !replace_single, !map_map. apply map_ext. intros c.
  unfold underscore_if_excluded. rewrite is_exclusion_character_unfold.
  destruct (N.eqb_spec c 43), (N.eqb_spec c 35), (N.eqb_spec c 42),
    (N.eqb_spec c 62), (N.eqb_spec c 36); subst; simpl; try done.
Qed.

Lemma replaced_no_exclusion_character s :
  existsb is_exclusion_character (replace_exclusion_characters s) = false.
Proof.
  unfold replace_exclusion_characters. induction s as [|c s IH]; [done|].
  cbn [map existsb]. rewrite IH.
  by rewrite (underscore_not_excluded c).
Qed.

Lemma no_exclusion_no_leading_dollar s :
  existsb is_exclusion_character s = false ->
  leading_dollar_unreserved s = false.
Proof.
  intros H. unfold leading_dollar_unreserved.
  change (py "$") with [36]. rewrite startswith_single.
  destruct s as [|c s]; [done|].
  cbn [existsb] in H. apply orb_false_iff in H as [H _].
  rewrite is_exclusion_character_unfold in H.
  destruct (c =? 36); [|done].
  by rewrite !orb_true_r in H.
Qed.

Lemma replace_identity s :
  existsb is_exclusion_character s = false ->
  replace_exclusion_characters s = s.
Proof.
  unfold replace_exclusion_characters.
  induction s as [|c s IH]; [done|].
  cbn [existsb map]. intros [Hc Hs]%orb_false_iff.
  rewrite IH by done. unfold underscore_if_excluded. by rewrite Hc.
Qed.

Lemma sanitize_closed_form s :
  sanitize_mqtt_topic s = replace_exclusion_characters s.
Proof.
  unfold sanitize_mqtt_topic. cbv zeta.
  rewrite replace_restricted_closed_form.
  by rewrite no_exclusion_no_leading_dollar
    by apply replaced_no_exclusion_character.
Qed.

Lemma replaced_utf8_len s :
  utf8_len (replace_exclusion_characters s) = utf8_len s.
Proof.
  apply utf8_len_map. intros c.
  destruct (underscore_if_excluded_cases c) as [(_ & Hlt & _ & ->)|[_ ->]];
    [|done].
  unfold Py.encode_char.
  apply N.ltb_lt in Hlt. by rewrite Hlt.
Qed.

Lemma replaced_slash_count s :
  slash_count (replace_exclusion_characters s) = slash_count s.
Proof.
  unfold slash_count, replace_exclusion_characters.
  induction s as [|c s IH]; [done|].
  cbn [map]. rewrite !filter_cons.
  destruct (underscore_if_excluded_cases c) as [(_ & _ & Hne & ->)|[_ ->]].
  - rewrite decide_False by done. by rewrite decide_False by done.
  - destruct (decide (c = 47)); simpl; by rewrite IH.
Qed.

Lemma replaced_utf8_string s :
  utf8_string (replace_exclusion_characters s) = utf8_string s.
Proof.
  apply eq_true_iff_eq.
  by rewrite !utf8_string_len, replaced_utf8_len.
Qed.

End Methods.

(** ** Sanitization *)

Section Sanitization.

Implicit Types (s : str) (c : N).

Lemma encode_utf8_len s encoded :
  Py.encode s = Ok encoded -> utf8_len s = Ok (length encoded).
Proof. intros H. unfold utf8_len, result_map. by rewrite H. Qed.

Lemma split_slash_count s levels :
  Py.split s (py "/") = Ok levels -> length levels = S (slash_count s).
Proof.
  intros H. pose proof (level_count_slashes s) as Hl.
  unfold level_count, result_map in Hl. rewrite H in Hl. simpl in Hl.
  congruence.
Qed.

Lemma validate_sanitized s :
  validate_mqtt_topic (sanitize_mqtt_topic s) =
  n ← utf8_len s;
  if (250 <? n)%nat then Ok false
  else if (128 <? S (slash_count s))%nat then Ok false
  else Ok true.
Proof.
  rewrite sanitize_closed_form, validate_closed_form.
  rewrite replaced_no_exclusion_character.
  rewrite no_exclusion_no_leading_dollar
    by apply replaced_no_exclusion_character.
  by rewrite replaced_utf8_len, replaced_slash_count.
Qed.

(** C1: when the UTF-8 encoding of [s] has at most 250 bytes and [s]
    splits on [/] into at most 128 segments, the sanitized topic is
    accepted by [validate_mqtt_topic]; when the encoding has more than 250
    bytes or there are more than 128 segments, the sanitized topic is
    rejected. *)
Theorem sanitized_topic_validity s (encoded : list N) (levels : list str) :
  Py.encode s = Ok encoded ->
  Py.split s (py "/") = Ok levels ->
  ((length encoded <= 250)%nat /\ (length levels <= 128)%nat ->
   validate_mqtt_topic (sanitize_mqtt_topic s) = Ok true) /\
  ((250 < length encoded)%nat \/ (128 < length levels)%nat ->
   validate_mqtt_topic (sanitize_mqtt_topic s) = Ok false).
Proof.
  intros Henc Hsplit. rewrite validate_sanitized.
  rewrite (encode_utf8_len _ _ Henc). simpl.
  rewrite <- (split_slash_count _ _ Hsplit).
  destruct (Nat.ltb_spec 250 (length encoded)),
    (Nat.ltb_spec 128 (length levels)); split; intros; try done; lia.
Qed.

(** C4: sanitizing twice gives the same string as sanitizing once. *)
Theorem sanitize_idempotent s :
  sanitize_mqtt_topic (sanitize_mqtt_topic s) = sanitize_mqtt_topic s.
Proof.
  rewrite !sanitize_closed_form.
  apply replace_identity, replaced_no_exclusion_character.
Qed.

(** C9: a topic that [validate_mqtt_topic] accepts is left unchanged by
    [sanitize_mqtt_topic]. *)
Theorem sanitize_valid_identity s :
  validate_mqtt_topic s = Ok true -> sanitize_mqtt_topic s = s.
Proof.
  rewrite validate_closed_form, sanitize_closed_form.
  destruct (existsb is_exclusion_character s) eqn:Hex; [done|].
  intros _. by apply replace_identity.
Qed.

(** C10: [sanitize_mqtt_topic] is the plain replacement of every
    [+ # * > $] by [_]: the replacement loop alone already gives that
    string, it never starts with [$], and so the condition of the
    leading-dollar rewrite is false every time it is tested. *)
Theorem sanitize_plain_replacement s :
  sanitize_mqtt_topic s = replace_exclusion_characters s /\
  replace_restricted s = replace_exclusion_characters s /\
  Py.startswith (replace_restricted s) (py "$") = false /\
  leading_dollar_unreserved (replace_restricted s) = false.
Proof.
  split; [apply sanitize_closed_form|].
  split; [apply replace_restricted_closed_form|].
  rewrite replace_restricted_closed_form.
  pose proof (replaced_no_exclusion_character s) as Hex.
  split; [|by apply no_exclusion_no_leading_dollar].
  change (py "$") with [36]. rewrite startswith_single.
  destruct (replace_exclusion_characters s) as [|c t]; [done|].
  cbn [existsb] in Hex. apply orb_false_iff in Hex as [Hc _].
  rewrite is_exclusion_character_unfold in Hc.
  destruct (c =? 36); [|done]. by rewrite !orb_true_r in Hc.
Qed.

(** C6: sanitization changes neither the UTF-8 byte length nor the number
    of [/]-separated segments; a topic of 300 bytes without exclusion
    characters comes back unchanged and is rejected by
    [validate_mqtt_topic] before and after. *)
Theorem sanitize_keeps_length_and_depth s :
  utf8_len (sanitize_mqtt_topic s) = utf8_len s /\
  level_count (sanitize_mqtt_topic s) = level_count s /\
  (utf8_len s = Ok 300%nat ->
   (forall c, c ∈ s -> c ∉ exclusion_characters) ->
   sanitize_mqtt_topic s = s /\
   validate_mqtt_topic s = Ok false /\
   validate_mqtt_topic (sanitize_mqtt_topic s) = Ok false).
Proof.
  split; [by rewrite sanitize_closed_form, replaced_utf8_len|].
  split.
  { by rewrite !level_count_slashes, sanitize_closed_form,
      replaced_slash_count. }
  intros Hlen Hex%no_exclusion_character.
  assert (sanitize_mqtt_topic s = s) as Hid.
  { rewrite sanitize_closed_form. by apply replace_identity. }
  rewrite Hid. split; [done|].
  assert (validate_mqtt_topic s = Ok false) as Hv; [|done].
  rewrite validate_closed_form, Hex.
  rewrite no_exclusion_no_leading_dollar by done.
  by rewrite Hlen.
Qed.

End Sanitization.

(** ** Validation *)

Section Validation.

Implicit Types (s : str) (c : N).

(** The leading-dollar condition, stated with list prefixes. *)
Lemma leading_dollar_unreserved_iff s :
  leading_dollar_unreserved s = true <->
  py "$" `prefix_of` s /\
  ~ (py "$SYS/" `prefix_of` s \/ py "$share/" `prefix_of` s \/
     py "$noexport/" `prefix_of` s).
Proof.
  unfold leading_dollar_unreserved.
  rewrite andb_true_iff, negb_true_iff, <- not_true_iff_false.
  rewrite !orb_true_iff, !startswith_prefix_of. tauto.
Qed.

(** C5: [validate_mqtt_topic] answers [True] exactly when no character of
    the topic is one of [+ # * > $], the topic does not start with [$]
    outside the three reserved prefixes, its UTF-8 encoding has at most
    250 bytes and it splits on [/] into at most 128 segments; otherwise it
    answers [False].  The segments number one more than the [/] of the
    topic, so the empty topic has one segment. *)
Theorem validate_decision s (encoded : list N) (levels : list str) :
  Py.encode s = Ok encoded ->
  Py.split s (py "/") = Ok levels ->
  (validate_mqtt_topic s = Ok true <->
     (forall c, c ∈ s -> c ∉ exclusion_characters) /\
     ~ (py "$" `prefix_of` s /\
        ~ (py "$SYS/" `prefix_of` s \/ py "$share/" `prefix_of` s \/
           py "$noexport/" `prefix_of` s)) /\
     (length encoded <= 250)%nat /\
     (length levels <= 128)%nat) /\
  (validate_mqtt_topic s = Ok true \/ validate_mqtt_topic s = Ok false) /\
  length levels = S (slash_count s) /\
  Py.split (py "") (py "/") = Ok [py ""].
Proof.
  intros Henc Hsplit.
  pose proof (split_slash_count _ _ Hsplit) as Hlevels.
  rewrite validate_closed_form, (encode_utf8_len _ _ Henc), <- Hlevels.
  rewrite <- no_exclusion_character, <- leading_dollar_unreserved_iff.
  simpl.
  destruct (existsb is_exclusion_character s),
    (leading_dollar_unreserved s),
    (Nat.ltb_spec 250 (length encoded)),
    (Nat.ltb_spec 128 (length levels));
    repeat split; auto; try done; try lia; intros (? & ? & ? & ?);
    try done; lia.
Qed.

(** C7: on every UTF-8 string, the empty one included,
    [validate_mqtt_topic] returns a boolean and raises nothing, and
    [sanitize_mqtt_topic] returns a UTF-8 string. *)
Theorem validate_sanitize_total s :
  utf8_string s = true ->
  (exists b, validate_mqtt_topic s = Ok b) /\
  (forall e, validate_mqtt_topic s <> Raise e) /\
  utf8_string (sanitize_mqtt_topic s) = true /\
  validate_mqtt_topic (py "") = Ok true /\
  sanitize_mqtt_topic (py "") = py "".
Proof.
  intros Hs.
  assert (exists b, validate_mqtt_topic s = Ok b) as [b Hb].
  { apply utf8_string_len in Hs as [n Hn].
    rewrite validate_closed_form, Hn. simpl.
    destruct (existsb is_exclusion_character s),
      (leading_dollar_unreserved s), (250 <? n)%nat,
      (128 <? S (slash_count s))%nat; eauto. }
  split; [eauto|]. split; [by rewrite Hb|].
  split; [|done].
  by rewrite sanitize_closed_form, replaced_utf8_string.
Qed.

(** C3: on ["$SYS/broker/load"] the reserved-character check fires on the
    leading [$] and the method answers [False]. *)
Theorem validate_reserved_prefix_rejected :
  validate_mqtt_topic (py "$SYS/broker/load") = Ok false.
Proof. reflexivity. Qed.

(** C2: on ["$SYS/foo"] the replacement loop rewrites the leading [$], so
    the reserved prefix is lost. *)
Theorem sanitize_reserved_prefix_rewritten :
  sanitize_mqtt_topic (py "$SYS/foo") = py "_SYS/foo".
Proof. reflexivity. Qed.

End Validation.

(** ** The reading loop of generate_telegraf_config *)

Section Reader.

Implicit Types (row : gmap str cell) (st : reader_state) (n : node).

Lemma candidate_verdict n b :
  validate_mqtt_topic (candidate_topic (identifier n)) = Ok b ->
  candidate_accepted n = b /\ candidate_rejected n = negb b.
Proof.
  intros H. unfold candidate_accepted, candidate_rejected. rewrite H.
  by destruct b.
Qed.

Lemma read_rows_cons row rows st :
  read_rows (row :: rows) st =
  match process_row row st with
  | (st1, Ok _) => read_rows rows st1
  | (st1, Raise e) => (st1, Raise e)
  end.
Proof. reflexivity. Qed.

End Reader.

(** ** Concrete topics and records *)

Section Concrete.

(** A topic with a [#] and a leading [$] is repaired; one of 251 bytes is
    not. *)
Lemma sanitized_topic_validity_witness :
  validate_mqtt_topic (sanitize_mqtt_topic (py "$custom/Temp#1")) = Ok true /\
  validate_mqtt_topic (sanitize_mqtt_topic (repeat 97 251)) = Ok false.
Proof.
  split.
  - refine (proj1 (sanitized_topic_validity (py "$custom/Temp#1") _ _
                     eq_refl eq_refl) _).
    vm_compute. split; lia.
  - refine (proj2 (sanitized_topic_validity (repeat 97 251) _ _
                     eq_refl eq_refl) _).
    left. vm_compute. lia.
Defined.

(** An ordinary three-level topic passes all four checks. *)
Lemma validate_decision_witness :
  exists encoded levels,
    Py.encode (py "telegraf/opcua/Temp_1") = Ok encoded /\
    Py.split (py "telegraf/opcua/Temp_1") (py "/") = Ok levels /\
    length levels = 3%nat /\
    validate_mqtt_topic (py "telegraf/opcua/Temp_1") = Ok true.
Proof.
  eexists _, _. split; [reflexivity|]. split; [reflexivity|].
  split; [reflexivity|].
  refine (proj2 (proj1 (validate_decision (py "telegraf/opcua/Temp_1") _ _
                          eq_refl eq_refl)) _).
  split.
  { apply no_exclusion_character. reflexivity. }
  split.
  { rewrite <- leading_dollar_unreserved_iff. discriminate. }
  vm_compute. split; lia.
Defined.

(** Three hundred [a]s: unchanged by sanitization, rejected for length. *)
Lemma sanitize_keeps_length_and_depth_witness :
  utf8_len (repeat 97 300) = Ok 300%nat /\
  sanitize_mqtt_topic (repeat 97 300) = repeat 97 300 /\
  validate_mqtt_topic (repeat 97 300) = Ok false /\
  validate_mqtt_topic (sanitize_mqtt_topic (repeat 97 300)) = Ok false.
Proof.
  split; [vm_compute; reflexivity|].
  refine (proj2 (proj2 (sanitize_keeps_length_and_depth (repeat 97 300)))
            _ _).
  - vm_compute. reflexivity.
  - apply no_exclusion_character. vm_compute. reflexivity.
Defined.

(** A UTF-8 topic gets an answer, here [False] for its [#]. *)
Lemma validate_sanitize_total_witness :
  utf8_string (py "telegraf/opcua/Temp#1") = true /\
  exists b, validate_mqtt_topic (py "telegraf/opcua/Temp#1") = Ok b.
Proof.
  split; [reflexivity|].
  exact (proj1 (validate_sanitize_total (py "telegraf/opcua/Temp#1")
                  eq_refl)).
Defined.

(** An accepted topic is a fixed point of sanitization. *)
Lemma sanitize_valid_identity_witness :
  validate_mqtt_topic (py "telegraf/opcua/Temp_1") = Ok true /\
  sanitize_mqtt_topic (py "telegraf/opcua/Temp_1") = py "telegraf/opcua/Temp_1".
Proof.
  split; [reflexivity|].
  exact (sanitize_valid_identity (py "telegraf/opcua/Temp_1") eq_refl).
Defined.

(** The concrete cases of the module's contract. *)
Example validate_temp_hash :
  validate_mqtt_topic (py "telegraf/opcua/Temp#1") = Ok false.
Proof. reflexivity. Qed.

Example sanitize_temp_hash :
  sanitize_mqtt_topic (py "telegraf/opcua/Temp#1") =
  py "telegraf/opcua/Temp_1".
Proof. reflexivity. Qed.

Example validate_custom_dollar :
  validate_mqtt_topic (py "$custom/topic") = Ok false.
Proof. reflexivity. Qed.

Example sanitize_custom_dollar :
  sanitize_mqtt_topic (py "$custom/topic") = py "_custom/topic".
Proof. reflexivity. Qed.

Example validate_129_levels :
  validate_mqtt_topic (repeat 47 128) = Ok false /\
  validate_mqtt_topic (repeat 47 127) = Ok true.
Proof. split; vm_compute; reflexivity. Qed.

(** Three bytes per character: 84 characters fit, 85 do not. *)
Example validate_multibyte_length :
  validate_mqtt_topic (repeat 0x20AC 83) = Ok true /\
  validate_mqtt_topic (repeat 0x20AC 84) = Ok false.
Proof. split; vm_compute; reflexivity. Qed.

(** The character check comes before the encoding: a lone surrogate makes
    [encode] raise only when no exclusion character is present. *)
Example validate_surrogate :
  validate_mqtt_topic [0xD800] = Raise UnicodeEncodeError /\
  validate_mqtt_topic [0xD800; 35] = Ok false.
Proof. split; reflexivity. Qed.

Example split_consecutive :
  Py.split (py "a//b/") (py "/") = Ok [py "a"; py ""; py "b"; py ""].
Proof. reflexivity. Qed.

Example replace_prefixes :
  Py.replace (py "ns=2") (py "ns=") (py "") = py "2" /\
  Py.replace (py "s=s=ns=x") (py "s=") (py "") = py "nx" /\
  Py.replace (py "aaa") (py "aa") (py "b") = py "ba".
Proof. repeat split; reflexivity. Qed.

Example encode_euro : Py.encode [0x20AC] = Ok [0xE2; 0x82; 0xAC].
Proof. reflexivity. Qed.

(** Four records: accepted, sanitized, skipped for its NodeId format,
    sanitized. *)
Example read_rows_run :
  let st := (read_rows [csv_record "ns=2;s=Line1/Temp" "Line 1";
                        csv_record "ns=2;s=Temp#1" "Temp";
                        csv_record "ns=2" "Bad";
                        csv_record "ns=3;s=a+b" "Sum"] initial_state).1 in
  map mqtt_topic (nodes st) =
    [py "telegraf/opcua/Line1/Temp"; py "telegraf/opcua/Temp_1";
     py "telegraf/opcua/a_b"] /\
  _total_nodes_processed st = 3%nat /\
  _topics_sanitized st = 2%nat.
Proof. vm_compute. done. Qed.

(** A line shorter than the header ends the loop with the exception; the
    counters keep what was counted before. *)
Example read_rows_short_line :
  read_rows [csv_record "ns=2;s=Temp#1" "Temp";
             {[ py "NodeId" := CellNone; py "CustomName" := CellNone ]};
             csv_record "ns=3;s=a+b" "Sum"] initial_state =
  ({| nodes := [ {| node_id := CellStr (py "ns=2;s=Temp#1");
                    custom_name := CellStr (py "Temp");
                    namespace := py "2";
                    identifier := py "Temp#1";
                    identifier_type := py "s";
                    mqtt_topic := py "telegraf/opcua/Temp_1" |} ];
      _total_nodes_processed := 1;
      _topics_sanitized := 1 |}, Raise AttributeError).
Proof. vm_compute. reflexivity. Qed.

End Concrete.

(** * The rest of the module *)

(** ** More on the built-ins *)

Section Substrings.

Implicit Types (s sub old new sep piece : str) (a c : N) (k : nat).

Lemma startswith_app s sub : Py.startswith (sub ++ s) sub = true.
Proof. apply startswith_prefix_of. by apply prefix_app_r. Qed.

(** [sub in s] is true exactly when [s] can be cut around a copy of
    [sub]. *)
Lemma contains_iff sub s :
  Py.contains sub s = true <-> exists l r, s = l ++ sub ++ r.
Proof.
  induction s as [|c s IH].
  - simpl. rewrite orb_false_r, startswith_prefix_of. split.
    + intros ->%prefix_nil_inv. by exists [], [].
    + intros (l & r & H). symmetry in H.
      apply app_eq_nil in H as [_ H]. apply app_eq_nil in H as [-> _].
      done.
  - cbn [Py.contains]. rewrite orb_true_iff, IH, startswith_prefix_of.
    split.
    + intros [[r ->]|(l & r & ->)]; [by exists [], r | by exists (c :: l), r].
    + intros (l & r & H). destruct l as [|c' l].
      * left. exists r. done.
      * right. injection H as -> ->. by exists l, r.
Qed.

Lemma contains_concat sub piece (pieces : list str) :
  piece ∈ pieces ->
  Py.contains sub piece = true ->
  Py.contains sub (concat pieces) = true.
Proof.
  intros Hin (l & r & ->)%contains_iff.
  apply list_elem_of_split in Hin as (before & after & ->).
  apply contains_iff.
  exists (concat before ++ l), (r ++ concat after).
  rewrite concat_app. simpl. by rewrite <- !app_assoc.
Qed.

(** Once an occurrence is matched, the rest of it is dropped. *)
Lemma replace_from_skip old new l s :
  Py.replace_from old new (length l) (l ++ s) = Py.replace_from old new 0 s.
Proof. induction l as [|c l IH]; [done | apply IH]. Qed.

Lemma replace_from_absent old new s :
  Py.contains old s = false -> Py.replace_from old new 0 s = s.
Proof.
  induction s as [|c s IH]; [done|].
  cbn [Py.contains Py.replace_from].
  intros [-> Hs]%orb_false_iff. by rewrite IH.
Qed.

(** Removing a prefix that does not come back later in the string. *)
Lemma replace_leading old s :
  old <> [] ->
  Py.contains old s = false ->
  Py.replace (old ++ s) old [] = s.
Proof.
  intros Hold Hs. unfold Py.replace.
  destruct old as [|c old]; [done|].
  change ((c :: old) ++ s) with (c :: (old ++ s)).
  cbn [Py.replace_from].
  change (c :: old ++ s) with ((c :: old) ++ s).
  rewrite startswith_app.
  replace (length (c :: old) - 1)%nat with (length old) by (simpl; lia).
  rewrite replace_from_skip. simpl. by apply replace_from_absent.
Qed.

(** Neither [replace] with an empty replacement nor [split] brings in a
    character the string did not have. *)
Lemma replace_from_forallb (p : N -> bool) old k s :
  forallb p s = true -> forallb p (Py.replace_from old [] k s) = true.
Proof.
  revert k. induction s as [|c s IH]; intros k; [done|].
  cbn [forallb Py.replace_from]. intros [Hc Hs]%andb_true_iff.
  destruct k; [|by apply IH].
  destruct (Py.startswith _ _); simpl; [by apply IH|].
  by rewrite Hc, IH.
Qed.

Lemma replace_forallb (p : N -> bool) old s :
  old <> [] ->
  forallb p s = true -> forallb p (Py.replace s old []) = true.
Proof.
  intros Hold. unfold Py.replace. destruct old; [done|].
  apply replace_from_forallb.
Qed.

Lemma split_from_forallb (p : N -> bool) sep k s :
  forallb p s = true ->
  Forall (fun piece => forallb p piece = true) (Py.split_from sep k s).
Proof.
  revert k. induction s as [|c s IH]; intros k.
  - intros _. by repeat constructor.
  - cbn [forallb Py.split_from]. intros [Hc Hs]%andb_true_iff.
    destruct k; [|by apply IH].
    destruct (Py.startswith _ _); [constructor; [done | by apply IH]|].
    specialize (IH 0%nat Hs).
    destruct (Py.split_from sep 0 s) as [|piece pieces].
    + by repeat constructor; simpl; rewrite Hc.
    + inversion IH; subst. constructor; [|done]. simpl. by rewrite Hc.
Qed.

(** Splitting on one character. *)
Lemma split_single_absent a s :
  a ∉ s -> Py.split_from [a] 0 s = [s].
Proof.
  induction s as [|c s IH]; [done|].
  intros [Hne Hs]%not_elem_of_cons.
  cbn [Py.split_from]. rewrite startswith_single.
  destruct (N.eqb_spec c a) as [->|_]; [done|]. by rewrite IH.
Qed.

Lemma split_single_app a l r :
  a ∉ l ->
  Py.split_from [a] 0 (l ++ a :: r) = l :: Py.split_from [a] 0 r.
Proof.
  induction l as [|c l IH].
  - intros _. cbn [app Py.split_from]. rewrite startswith_single.
    by rewrite N.eqb_refl.
  - intros [Hne Hl]%not_elem_of_cons.
    change ((c :: l) ++ a :: r) with (c :: (l ++ a :: r)).
    cbn [Py.split_from]. rewrite startswith_single.
    destruct (N.eqb_spec c a) as [->|_]; [done|]. by rewrite IH.
Qed.

End Substrings.

(** ** One record *)

Section Record.

Implicit Types (row : gmap str cell) (st : reader_state) (s a b : str).

(** The loop body with its sequencing unfolded. *)
Lemma process_row_closed_form row st :
  process_row row st =
  match row !! py "NodeId", row !! py "CustomName" with
  | Some vid, Some vname =>
      match cell_split vid (py ";") with
      | Raise e => (st, Raise e)
      | Ok [part0; part1] =>
          let namespace := Py.replace part0 (py "ns=") (py "") in
          let identifier := Py.replace part1 (py "s=") (py "") in
          match validate_mqtt_topic (candidate_topic identifier) with
          | Raise e => (st, Raise e)
          | Ok valid =>
              ({| nodes :=
                    nodes st ++
                    [ {| node_id := vid;
                         custom_name := vname;
                         namespace := namespace;
                         identifier := identifier;
                         identifier_type := py "s";
                         mqtt_topic :=
                           if valid then candidate_topic identifier
                           else sanitize_mqtt_topic
                                  (candidate_topic identifier) |} ];
                  _total_nodes_processed := S (_total_nodes_processed st);
                  _topics_sanitized :=
                    if valid then _topics_sanitized st
                    else S (_topics_sanitized st) |}, Ok ())
          end
      | Ok _ => (st, Ok ())
      end
  | _, _ => (st, Ok ())
  end.
Proof.
  unfold process_row. cbn [forallb].
  destruct (row !! py "NodeId") as [vid|] eqn:Hid; cycle 1.
  { by rewrite bool_decide_eq_false_2 by (by intros [? ?]). }
  rewrite (bool_decide_eq_true_2 (is_Some (Some vid))) by eauto.
  destruct (row !! py "CustomName") as [vname|] eqn:Hname; cycle 1.
  { by rewrite bool_decide_eq_false_2 by (by intros [? ?]). }
  rewrite (bool_decide_eq_true_2 (is_Some (Some vname))) by eauto.
  cbn [andb]. unfold mbind, gen_bind, lift, getitem. rewrite Hid, Hname.
  destruct (cell_split vid (py ";")) as [parts|]; [|done].
  destruct parts as [|part0 [|part1 [|part2 parts]]]; try done.
  cbv zeta.
  destruct (validate_mqtt_topic _) as [[|]|]; done.
Qed.

Lemma cell_split_semicolons s :
  exists parts,
    cell_split (CellStr s) (py ";") = Ok parts /\
    length parts = S (semicolon_count s).
Proof.
  exists (Py.split_from [59] 0 s). split; [done|].
  apply split_single_length.
Qed.

Lemma validate_utf8 s :
  utf8_string s = true -> exists valid, validate_mqtt_topic s = Ok valid.
Proof.
  intros [n Hn]%utf8_string_len.
  rewrite validate_closed_form, Hn. simpl.
  destruct (existsb is_exclusion_character s),
    (leading_dollar_unreserved s), (250 <? n)%nat,
    (128 <? S (slash_count s))%nat; eauto.
Qed.

Lemma candidate_utf8 s :
  utf8_string (candidate_topic s) = utf8_string s.
Proof. unfold utf8_string, candidate_topic. by rewrite forallb_app. Qed.

End Record.

Section RecordProperties.

Implicit Types (row : gmap str cell) (st : reader_state) (s a b : str).

Lemma appended_state_differs st (n : node) (total sanitized : nat)
    (r : result unit) :
  ({| nodes := nodes st ++ [n];
      _total_nodes_processed := total;
      _topics_sanitized := sanitized |}, r) <> (st, Ok ()).
Proof.
  intros H. injection H as H _. apply (f_equal nodes) in H. simpl in H.
  apply (f_equal length) in H. rewrite length_app in H. simpl in H. lia.
Qed.

(** X1: a record is passed over (state untouched, nothing raised) exactly
    when a required column is missing or the NodeId text does not have
    exactly one [;]. *)
Theorem process_row_skips row st :
  process_row row st = (st, Ok ()) <->
  row !! py "NodeId" = None \/
  row !! py "CustomName" = None \/
  exists s, row !! py "NodeId" = Some (CellStr s) /\ semicolon_count s <> 1%nat.
Proof.
  rewrite process_row_closed_form.
  destruct (row !! py "NodeId") as [[s|]|]; [| |by split; auto].
  - destruct (row !! py "CustomName") as [vname|];
      [|by split; auto].
    destruct (cell_split_semicolons s) as (parts & -> & Hlen).
    destruct parts as [|part0 [|part1 [|part2 parts]]]; simpl in Hlen.
    + lia.
    + split; [intros _|done]. right. right. exists s. split; [done | lia].
    + cbv zeta. split.
      * destruct (validate_mqtt_topic _) as [valid|]; [|done].
        intros H. by apply appended_state_differs in H.
      * intros [H|[H|(s' & [= <-] & H)]]; [done | done | lia].
    + split; [intros _|done]. right. right. exists s. split; [done | lia].
  - destruct (row !! py "CustomName") as [vname|]; [|by split; auto].
    simpl. split; [done|].
    by intros [H|[H|(s' & H & _)]].
Qed.

(** X3: a NodeId [ns=<a>;s=<b>], with [a] and [b] free of [;], of [ns=]
    and of [s=] respectively, is stored with namespace [a] and identifier
    [b]; the processed count goes up by one and the topic is the
    candidate or its sanitized form. *)
Theorem process_row_well_formed row st a b (vname : cell) :
  row !! py "NodeId" = Some (CellStr (py "ns=" ++ a ++ py ";s=" ++ b)) ->
  row !! py "CustomName" = Some vname ->
  59 ∉ a -> 59 ∉ b ->
  Py.contains (py "ns=") a = false ->
  Py.contains (py "s=") b = false ->
  utf8_string b = true ->
  exists valid,
    validate_mqtt_topic (candidate_topic b) = Ok valid /\
    process_row row st =
    ({| nodes :=
          nodes st ++
          [ {| node_id := CellStr (py "ns=" ++ a ++ py ";s=" ++ b);
               custom_name := vname;
               namespace := a;
               identifier := b;
               identifier_type := py "s";
               mqtt_topic :=
                 if valid then candidate_topic b
                 else sanitize_mqtt_topic (candidate_topic b) |} ];
        _total_nodes_processed := S (_total_nodes_processed st);
        _topics_sanitized :=
          if valid then _topics_sanitized st
          else S (_topics_sanitized st) |}, Ok ()).
Proof.
  intros Hid Hname Ha Hb Hns Hs Hutf.
  destruct (validate_utf8 (candidate_topic b)) as [valid Hvalid];
    [by rewrite candidate_utf8|].
  exists valid. split; [done|].
  rewrite process_row_closed_form, Hid, Hname.
  assert (Py.split_from [59] 0 (py "ns=" ++ a ++ py ";s=" ++ b) =
          [py "ns=" ++ a; py "s=" ++ b]) as Hsplit.
  { change (py ";s=" ++ b) with (59 :: (py "s=" ++ b)).
    rewrite app_assoc, split_single_app, split_single_absent; [done| |].
    - rewrite not_elem_of_app. split; [|done].
      change (py "s=") with [115; 61].
      repeat (apply not_elem_of_cons; split; [done|]). apply not_elem_of_nil.
    - rewrite not_elem_of_app. split; [|done].
      change (py "ns=") with [110; 115; 61].
      repeat (apply not_elem_of_cons; split; [done|]). apply not_elem_of_nil. }
  unfold cell_split, Py.split. change (py ";") with [59].
  rewrite Hsplit. cbv zeta.
  rewrite !replace_leading by done.
  by rewrite Hvalid.
Qed.

End RecordProperties.

(** ** The whole loop *)

Section Loop.

Implicit Types (row : gmap str cell) (rows : list (gmap str cell))
  (st : reader_state) (n : node) (s : str).

(** What a record that is not passed over does, with what is known of the
    stored identifier when the NodeId is UTF-8 text. *)
Lemma process_row_outcome row st :
  (process_row row st).1 = st \/
  exists n valid,
    validate_mqtt_topic (candidate_topic (identifier n)) = Ok valid /\
    mqtt_topic n =
      (if valid then candidate_topic (identifier n)
       else sanitize_mqtt_topic (candidate_topic (identifier n))) /\
    (node_id_utf8 row = true -> utf8_string (identifier n) = true) /\
    process_row row st =
    ({| nodes := nodes st ++ [n];
        _total_nodes_processed := S (_total_nodes_processed st);
        _topics_sanitized :=
          if valid then _topics_sanitized st
          else S (_topics_sanitized st) |}, Ok ()).
Proof.
  rewrite process_row_closed_form. unfold node_id_utf8.
  destruct (row !! py "NodeId") as [vid|]; [|by left].
  destruct (row !! py "CustomName") as [vname|]; [|by left].
  destruct vid as [s|]; [|by left].
  unfold cell_split, Py.split. change (py ";") with [59].
  pose proof (split_from_forallb scalar_value [59] 0 s) as Hpieces.
  destruct (Py.split_from [59] 0 s) as [|part0 [|part1 [|part2 parts]]];
    try by left.
  cbv zeta.
  destruct (validate_mqtt_topic _) as [valid|] eqn:Hvalid; [|by left].
  right.
  eexists (Node (CellStr s) vname _ (Py.replace part1 (py "s=") (py "")) _ _),
    valid.
  simpl. split; [exact Hvalid|].
  split; [done|]. split; [|done].
  intros Hs. apply Hpieces in Hs.
  inversion Hs as [|? ? _ Hs']; subst. inversion Hs' as [|? ? H1 _]; subst.
  exact (replace_forallb scalar_value (py "s=") part1 ltac:(done) H1).
Qed.

Lemma process_row_utf8 row st :
  node_id_utf8 row = true -> (process_row row st).2 = Ok ().
Proof.
  intros Hrow.
  destruct (process_row_outcome row st) as [Hst|(n & valid & _ & _ & _ & ->)];
    [|done].
  revert Hrow Hst. rewrite process_row_closed_form. unfold node_id_utf8.
  destruct (row !! py "NodeId") as [vid|]; [|done].
  destruct (row !! py "CustomName") as [vname|]; [|done].
  destruct vid as [s|]; [|done].
  unfold cell_split, Py.split. change (py ";") with [59].
  pose proof (split_from_forallb scalar_value [59] 0 s) as Hpieces.
  destruct (Py.split_from [59] 0 s) as [|part0 [|part1 [|part2 parts]]];
    try done.
  cbv zeta. intros Hs _. apply Hpieces in Hs.
  inversion Hs as [|? ? _ Hs']; subst. inversion Hs' as [|? ? H1 _]; subst.
  destruct (validate_utf8 (candidate_topic (Py.replace part1 (py "s=") (py ""))))
    as [valid ->]; [|done].
  rewrite candidate_utf8.
  exact (replace_forallb scalar_value (py "s=") part1 ltac:(done) H1).
Qed.

Lemma read_rows_app rows1 rows2 st :
  read_rows (rows1 ++ rows2) st =
  match read_rows rows1 st with
  | (st1, Ok _) => read_rows rows2 st1
  | (st1, Raise e) => (st1, Raise e)
  end.
Proof.
  revert st. induction rows1 as [|row rows1 IH]; intros st; [done|].
  change ((row :: rows1) ++ rows2) with (row :: (rows1 ++ rows2)).
  rewrite !read_rows_cons.
  destruct (process_row row st) as [st1 [[]|e]]; [apply IH | done].
Qed.

(** Everything the loop is known to have done, in one induction. *)
Lemma read_rows_summary rows st :
  exists new,
    nodes (read_rows rows st).1 = nodes st ++ new /\
    _total_nodes_processed (read_rows rows st).1 =
      (_total_nodes_processed st + length new)%nat /\
    _topics_sanitized (read_rows rows st).1 =
      (_topics_sanitized st +
       length (filter (fun n => candidate_rejected n = true) new))%nat /\
    Forall (fun n => exists valid,
              validate_mqtt_topic (candidate_topic (identifier n)) = Ok valid /\
              mqtt_topic n =
                if valid then candidate_topic (identifier n)
                else sanitize_mqtt_topic (candidate_topic (identifier n)))
      new /\
    (forallb node_id_utf8 rows = true ->
     (read_rows rows st).2 = Ok () /\
     Forall (fun n => utf8_string (identifier n) = true) new).
Proof.
  revert st. induction rows as [|row rows IH]; intros st.
  - exists []. simpl. rewrite app_nil_r. repeat split; auto; lia.
  - rewrite read_rows_cons. cbn [forallb].
    pose proof (process_row_utf8 row st) as Hok.
    destruct (process_row_outcome row st)
      as [Hst|(n & valid & Hvalid & Htopic & Hutf & Hrow)].
    + destruct (process_row row st) as [st1 [[]|e]]; simpl in Hst, Hok;
        subst st1.
      * destruct (IH st) as (new & H1 & H2 & H3 & H4 & H5).
        exists new. do 4 (split; [done|]).
        intros [_ Hrows]%andb_true_iff. by apply H5.
      * exists []. simpl. rewrite app_nil_r.
        split; [done|]. do 2 (split; [lia|]). split; [done|].
        intros [Hr _]%andb_true_iff. by specialize (Hok Hr).
    + rewrite Hrow.
      match goal with |- context [read_rows rows ?st1] =>
        destruct (IH st1) as (new & H1 & H2 & H3 & H4 & H5) end.
      simpl in H1, H2, H3.
      exists (n :: new). rewrite H1, H2, H3, <- app_assoc.
      split; [done|]. split; [simpl; lia|].
      split.
      { rewrite filter_cons.
        destruct (candidate_verdict _ _ Hvalid) as [_ ->].
        destruct valid; simpl; lia. }
      split; [constructor; eauto|].
      intros [Hr Hrows]%andb_true_iff.
      destruct (H5 Hrows) as [H6 H7]. split; [done|].
      constructor; auto.
Qed.

End Loop.

(** ** Stored topics and the sanitized counter, record by record *)

Section Counting.

Implicit Types (row : gmap str cell) (rows : list (gmap str cell))
  (st : reader_state) (n : node) (id : str).

(** The loop body in terms of the record's identifier and of the verdict
    on its candidate. *)
Lemma process_row_exact row st :
  if row_raises row then exists e, process_row row st = (st, Raise e)
  else
    match row_identifier row with
    | None => process_row row st = (st, Ok ())
    | Some id =>
        exists n valid,
          validate_mqtt_topic (candidate_topic id) = Ok valid /\
          identifier n = id /\
          mqtt_topic n =
            (if valid then candidate_topic id
             else sanitize_mqtt_topic (candidate_topic id)) /\
          process_row row st =
          ({| nodes := nodes st ++ [n];
              _total_nodes_processed := S (_total_nodes_processed st);
              _topics_sanitized :=
                if valid then _topics_sanitized st
                else S (_topics_sanitized st) |}, Ok ())
    end.
Proof.
  rewrite process_row_closed_form.
  unfold row_raises, short_line, row_identifier.
  destruct (row !! py "NodeId") as [[s|]|]; [| |done].
  - destruct (row !! py "CustomName") as [vname|]; [|done].
    unfold cell_split, Py.split. change (py ";") with [59].
    destruct (Py.split_from [59] 0 s) as [|part0 [|part1 [|part2 parts]]];
      simpl; try done.
    destruct (validate_mqtt_topic _) as [valid|e] eqn:Hvalid; simpl;
      [|by eexists].
    eexists (Node _ _ _ _ _ _), valid. simpl.
    split; [reflexivity|]. split; [reflexivity|]. split; reflexivity.
  - destruct (row !! py "CustomName") as [vname|]; simpl; [by eexists|done].
Qed.



(** The whole loop, record by record. *)
Lemma read_rows_exact rows st :
  map mqtt_topic (nodes (read_rows rows st).1) =
    map mqtt_topic (nodes st) ++ omap expected_topic (rows_read rows) /\
  _total_nodes_processed (read_rows rows st).1 =
    (_total_nodes_processed st +
     length (omap expected_topic (rows_read rows)))%nat /\
  _topics_sanitized (read_rows rows st).1 =
    (_topics_sanitized st +
     length (filter (fun row => candidate_fails row = true)
               (rows_read rows)))%nat /\
  ((read_rows rows st).2 = Ok () <-> rows_read rows = rows).
Proof.
  revert st. induction rows as [|row rows IH]; intros st.
  - simpl. rewrite app_nil_r. repeat split; lia.
  - rewrite read_rows_cons. cbn [rows_read].
    pose proof (process_row_exact row st) as Hrow.
    destruct (row_raises row).
    { destruct Hrow as [e ->]. simpl. rewrite app_nil_r.
      repeat split; try lia; done. }
    rewrite filter_cons. cbn [omap list_omap].
    destruct (row_identifier row) as [id|] eqn:Hid.
    + destruct Hrow as (n & valid & Hvalid & Hn & Htopic & Hprow).
      assert (expected_topic row = Some (mqtt_topic n)) as ->.
      { unfold expected_topic. rewrite Hid, Hvalid, Htopic. by destruct valid. }
      assert (candidate_fails row = negb valid) as Hfails.
      { unfold candidate_fails. rewrite Hid, Hvalid. by destruct valid. }
      rewrite Hprow.
      match goal with |- context [read_rows rows ?st1] =>
        destruct (IH st1) as (H1 & H2 & H3 & H4) end.
      rewrite H1, H2, H3, H4, Hfails. simpl.
      rewrite map_app, <- app_assoc. simpl.
      split; [done|].
      split; [lia|].
      split; [destruct valid; simpl; lia|].
      split; [by intros ->|]. by intros [= ->].
    + assert (expected_topic row = None) as ->.
      { unfold expected_topic. by rewrite Hid. }
      assert (candidate_fails row = false) as ->.
      { unfold candidate_fails. by rewrite Hid. }
      rewrite Hrow. destruct (IH st) as (H1 & H2 & H3 & H4).
      rewrite decide_False by done.
      do 3 (split; [done|]).
      rewrite H4. split; [by intros ->|]. by intros [= ->].
Qed.


End Counting.

Section LoopProperties.

Implicit Types (row : gmap str cell) (rows : list (gmap str cell))
  (st : reader_state) (n : node) (s t : str).

(** X2: a short line that leaves NodeId without a value raises
    [AttributeError] and ends the loop there: the state is the one the
    earlier records left and the later records are never looked at. *)
Theorem short_line_aborts row rows1 rows2 st st1 :
  short_line row = true ->
  read_rows rows1 st = (st1, Ok ()) ->
  read_rows (rows1 ++ row :: rows2) st = (st1, Raise AttributeError).
Proof.
  intros Hshort Hrows1.
  rewrite read_rows_app, Hrows1, read_rows_cons, process_row_closed_form.
  unfold short_line in Hshort.
  destruct (row !! py "NodeId") as [[s|]|]; try done.
  by destruct (row !! py "CustomName").
Qed.

(** X4: the loop adds to [_total_nodes_processed] exactly the number of
    nodes it appends, and never adds more to [_topics_sanitized] than to
    [_total_nodes_processed]. *)
Theorem processed_count_tracks_nodes rows st :
  (_total_nodes_processed (read_rows rows st).1 + length (nodes st) =
   _total_nodes_processed st + length (nodes (read_rows rows st).1))%nat /\
  (_topics_sanitized (read_rows rows st).1 + _total_nodes_processed st <=
   _topics_sanitized st + _total_nodes_processed (read_rows rows st).1)%nat.
Proof.
  destruct (read_rows_summary rows st) as (new & -> & -> & -> & _).
  rewrite length_app.
  pose proof (length_filter (fun n => candidate_rejected n = true) new).
  lia.
Qed.

(** The topic stored for a node has none of the exclusion characters and
    keeps the prefix of the candidate. *)
Lemma stored_topic_shape (identifier valid_topic : str) (valid : bool) :
  validate_mqtt_topic (candidate_topic identifier) = Ok valid ->
  valid_topic =
    (if valid then candidate_topic identifier
     else sanitize_mqtt_topic (candidate_topic identifier)) ->
  existsb is_exclusion_character valid_topic = false /\
  py "telegraf/opcua/" `prefix_of` valid_topic.
Proof.
  intros Hvalid ->. destruct valid.
  - split; [|by apply prefix_app_r].
    rewrite validate_closed_form in Hvalid.
    by destruct (existsb is_exclusion_character (candidate_topic identifier)).
  - rewrite sanitize_closed_form.
    split; [apply replaced_no_exclusion_character|].
    unfold replace_exclusion_characters, candidate_topic.
    rewrite map_app. by apply prefix_app_r.
Qed.

(** X5: every topic the loop stores starts with [telegraf/opcua/] and
    contains none of [+ # * > $], whatever the records hold. *)
Theorem stored_topics_clean rows st :
  exists new,
    nodes (read_rows rows st).1 = nodes st ++ new /\
    Forall (fun n =>
              py "telegraf/opcua/" `prefix_of` mqtt_topic n /\
              forall c, c ∈ mqtt_topic n -> c ∉ exclusion_characters)
      new.
Proof.
  destruct (read_rows_summary rows st) as (new & Hnodes & _ & _ & Hnew & _).
  exists new. split; [done|].
  eapply Forall_impl; [exact Hnew|].
  intros n (valid & Hvalid & Htopic). cbv beta.
  destruct (stored_topic_shape _ _ _ Hvalid Htopic) as [Hclean Hprefix].
  split; [done|]. by apply no_exclusion_character.
Qed.

(** A topic free of exclusion characters is judged on its size alone. *)
Lemma clean_topic_verdict t :
  existsb is_exclusion_character t = false ->
  utf8_string t = true ->
  exists len,
    utf8_len t = Ok len /\
    validate_mqtt_topic t =
    Ok (bool_decide (len <= 250 /\ S (slash_count t) <= 128)%nat).
Proof.
  intros Hclean [len Hlen]%utf8_string_len. exists len. split; [done|].
  rewrite validate_closed_form, Hclean, Hlen.
  rewrite no_exclusion_no_leading_dollar by done. simpl.
  destruct (Nat.ltb_spec 250 len), (Nat.ltb_spec 128 (S (slash_count t)));
    case_bool_decide; try done; lia.
Qed.

(** X6: when every NodeId that is present is UTF-8 text, the loop reads
    all records without raising, and each topic it stores passes
    [validate_mqtt_topic] unless it is longer than 250 bytes or deeper
    than 128 levels. *)
Theorem utf8_rows_never_raise rows st :
  forallb node_id_utf8 rows = true ->
  (read_rows rows st).2 = Ok () /\
  exists new,
    nodes (read_rows rows st).1 = nodes st ++ new /\
    Forall (fun n => exists len levels,
              utf8_len (mqtt_topic n) = Ok len /\
              level_count (mqtt_topic n) = Ok levels /\
              validate_mqtt_topic (mqtt_topic n) =
              Ok (bool_decide (len <= 250 /\ levels <= 128)%nat))
      new.
Proof.
  intros Hrows.
  destruct (read_rows_summary rows st) as (new & Hnodes & _ & _ & Hnew & Hutf).
  destruct (Hutf Hrows) as [Hok Hids]. split; [done|].
  exists new. split; [done|].
  apply Forall_forall. intros n Hn.
  rewrite Forall_forall in Hnew, Hids.
  destruct (Hnew n Hn) as (valid & Hvalid & Htopic).
  destruct (stored_topic_shape _ _ _ Hvalid Htopic) as [Hclean _].
  assert (utf8_string (mqtt_topic n) = true) as Hutf8.
  { rewrite Htopic. destruct valid.
    - rewrite candidate_utf8. by apply Hids.
    - rewrite sanitize_closed_form, replaced_utf8_string, candidate_utf8.
      by apply Hids. }
  destruct (clean_topic_verdict _ Hclean Hutf8) as (len & Hlen & Hverdict).
  exists len, (S (slash_count (mqtt_topic n))).
  split; [done|]. split; [apply level_count_slashes | done].
Qed.

End LoopProperties.

(** ** The generated text *)

Section Rendering.

Implicit Types (self : Self.t) (n : node).

Lemma topic_line_in_stanza self n :
  Py.contains (tpl "  topic = `" ++ mqtt_topic n ++ tpl "`")
    (mqtt_output_stanza self n) = true.
Proof.
  apply contains_iff.
  exists (tpl "# MQTT Output for Node: " ++ identifier n ++ tpl "
[[outputs.mqtt]]
  servers = [`" ++ Self.mqtt_broker self
          ++ tpl "`] # Replace with your MQTT broker address
"),
    (tpl "
  tagpass = { id = [`ns=" ++ namespace n ++ tpl ";s=" ++ identifier n
     ++ tpl "`] }
  qos = 0
  retain = false
  data_format = `json`
").
  unfold mqtt_output_stanza. rewrite <- !app_assoc. reflexivity.
Qed.


End Rendering.

(** ** generate_telegraf_config as a whole *)

Section Generate.

Implicit Types (self : Self.t) (rows : list (gmap str cell))
  (st : reader_state) (n : node) (s t : str).

Lemma topic_line_in_config self (stored : list node) n :
  n ∈ stored ->
  Py.contains (tpl "  topic = `" ++ mqtt_topic n ++ tpl "`")
    (concat (build_config self stored)) = true.
Proof.
  intros Hn.
  apply (contains_concat _ (mqtt_output_stanza self n)).
  - unfold build_config. rewrite !elem_of_app. do 3 right.
    apply list_elem_of_fmap. by exists n.
  - apply topic_line_in_stanza.
Qed.

Lemma short_line_raises rows st :
  existsb short_line rows = true ->
  exists e, (read_rows rows st).2 = Raise e.
Proof.
  revert st. induction rows as [|row rows IH]; intros st; [done|].
  cbn [existsb]. rewrite read_rows_cons. intros Hshort.
  destruct (process_row row st) as [st1 [[]|e]] eqn:Hrow; [|by exists e].
  apply IH. destruct (short_line row) eqn:Hrow'; [|done].
  exfalso. revert Hrow. rewrite process_row_closed_form.
  unfold short_line in Hrow'.
  destruct (row !! py "NodeId") as [[s|]|]; try done.
  by destruct (row !! py "CustomName").
Qed.

(** The text is UTF-8 when everything put into it is. *)
Lemma utf8_string_app (s t : str) :
  utf8_string (s ++ t) = utf8_string s && utf8_string t.
Proof. apply forallb_app. Qed.

Lemma utf8_string_concat (pieces : list str) :
  Forall (fun piece => utf8_string piece = true) pieces ->
  utf8_string (concat pieces) = true.
Proof.
  induction 1 as [|piece pieces Hpiece _ IH]; [done|].
  simpl. by rewrite utf8_string_app, Hpiece, IH.
Qed.

Lemma build_config_utf8 self (stored : list node) :
  settings_utf8 self = true ->
  forallb node_utf8 stored = true ->
  utf8_string (concat (build_config self stored)) = true.
Proof.
  unfold settings_utf8. intros [[Hb He]%andb_true_iff Hi]%andb_true_iff.
  rewrite forallb_forall. intros Hstored.
  assert (forall n, n ∈ stored ->
            utf8_string (format_cell (custom_name n)) = true /\
            utf8_string (namespace n) = true /\
            utf8_string (identifier n) = true /\
            utf8_string (identifier_type n) = true /\
            utf8_string (mqtt_topic n) = true) as Hfields.
  { intros n Hn%list_elem_of_In%Hstored. unfold node_utf8 in Hn.
    repeat (apply andb_true_iff in Hn as [Hn ?]). done. }
  apply utf8_string_concat. unfold build_config.
  rewrite !Forall_app, !Forall_cons, !Forall_fmap.
  repeat split; try done.
  - unfold opcua_input_section. by rewrite !utf8_string_app, He.
  - apply Forall_forall. intros n (Hc & Hns & Hid & Hty & _)%Hfields.
    cbv beta. unfold compose, opcua_node_stanza.
    by rewrite !utf8_string_app, Hc, Hns, Hid, Hty.
  - unfold influxdb_output_section. by rewrite !utf8_string_app, Hi.
  - apply Forall_forall. intros n (_ & Hns & Hid & _ & Htopic)%Hfields.
    cbv beta. unfold compose, mqtt_output_stanza.
    by rewrite !utf8_string_app, Hb, Hns, Hid, Htopic.
Qed.

Lemma process_row_node_utf8 row st :
  cells_utf8 row = true ->
  forallb node_utf8 (nodes st) = true ->
  forallb node_utf8 (nodes (process_row row st).1) = true.
Proof.
  unfold cells_utf8, node_id_utf8. intros Hrow Hst.
  rewrite process_row_closed_form.
  destruct (row !! py "NodeId") as [[s|]|]; [| |done].
  - destruct (row !! py "CustomName") as [vname|]; [|done].
    apply andb_true_iff in Hrow as [Hs Hname].
    unfold cell_split, Py.split. change (py ";") with [59].
    pose proof (split_from_forallb scalar_value [59] 0 s Hs) as Hpieces.
    destruct (Py.split_from [59] 0 s) as [|part0 [|part1 [|part2 parts]]];
      try done.
    inversion Hpieces as [|? ? H0 Hpieces']; subst.
    inversion Hpieces' as [|? ? H1 _]; subst.
    assert (utf8_string (Py.replace part0 (py "ns=") (py "")) = true) as Hns.
    { exact (replace_forallb scalar_value (py "ns=") part0 ltac:(done) H0). }
    assert (utf8_string (Py.replace part1 (py "s=") (py "")) = true) as Hid.
    { exact (replace_forallb scalar_value (py "s=") part1 ltac:(done) H1). }
    cbv zeta.
    destruct (validate_mqtt_topic _) as [valid|]; [|done].
    cbn [fst nodes]. rewrite forallb_app, Hst. cbn [forallb andb].
    rewrite andb_true_r. unfold node_utf8. cbn [custom_name namespace
      identifier identifier_type mqtt_topic].
    rewrite Hns, Hid.
    assert (utf8_string (format_cell vname) = true) as ->.
    { by destruct vname. }
    assert (utf8_string
              (if valid
               then candidate_topic (Py.replace part1 (py "s=") (py ""))
               else sanitize_mqtt_topic
                      (candidate_topic (Py.replace part1 (py "s=") (py ""))))
            = true) as ->; [|done].
    destruct valid; [by rewrite candidate_utf8|].
    by rewrite sanitize_closed_form, replaced_utf8_string, candidate_utf8.
  - by destruct (row !! py "CustomName").
Qed.

Lemma read_rows_nodes_utf8 rows st :
  forallb cells_utf8 rows = true ->
  forallb node_utf8 (nodes st) = true ->
  forallb node_utf8 (nodes (read_rows rows st).1) = true.
Proof.
  revert st. induction rows as [|row rows IH]; intros st; [done|].
  cbn [forallb]. intros [Hrow Hrows]%andb_true_iff Hst.
  rewrite read_rows_cons.
  pose proof (process_row_node_utf8 row st Hrow Hst) as Hst1.
  destruct (process_row row st) as [st1 [[]|e]]; [by apply IH | done].
Qed.

Lemma cells_utf8_node_id rows :
  forallb cells_utf8 rows = true -> forallb node_id_utf8 rows = true.
Proof.
  rewrite !forallb_forall. intros H row Hrow. specialize (H row Hrow).
  unfold cells_utf8 in H. by apply andb_true_iff in H as [? _].
Qed.

(** The method on an existing file, in one expression: the counters are
    those the loop leaves, and the text is written when neither the loop
    nor the reader raises, the text can be encoded and the output can be
    written. *)
Lemma generate_outcome self rows (reader_fails output_writable : bool) :
  generate_telegraf_config self (CsvRows rows reader_fails) output_writable =
  (leave_loop self (read_rows rows (enter_loop self)).1,
   if is_ok (read_rows rows (enter_loop self)).2 && negb reader_fails &&
      utf8_string
        (concat (build_config
                   (leave_loop self (read_rows rows (enter_loop self)).1)
                   (nodes (read_rows rows (enter_loop self)).1))) &&
      output_writable
   then Some (concat (build_config
                        (leave_loop self (read_rows rows (enter_loop self)).1)
                        (nodes (read_rows rows (enter_loop self)).1)))
   else None).
Proof.
  unfold generate_telegraf_config.
  destruct (read_rows rows (enter_loop self)) as [st [[]|e]];
    cbn [fst snd is_ok andb]; [|reflexivity].
  destruct reader_fails; cbn [negb andb]; [reflexivity|].
  cbv zeta.
  generalize (concat (build_config (leave_loop self st) (nodes st))).
  intros text.
  destruct (utf8_string text) eqn:Hutf.
  - apply encode_scalar in Hutf as [encoded ->].
    by destruct output_writable.
  - destruct (Py.encode text) as [encoded|] eqn:Henc; [|reflexivity].
    assert (utf8_string text = true) as Hutf'.
    { apply encode_scalar. by exists encoded. }
    congruence.
Qed.

(** X8: nothing is written when the CSV file is missing (the object is
    left as it was), when one line anywhere in the file is short (the
    records before it are counted but their nodes are dropped with the
    rest), when the reader fails, or when the output cannot be written. *)
Theorem short_line_writes_nothing self rows (reader_fails output_writable : bool) :
  generate_telegraf_config self CsvMissing output_writable = (self, None) /\
  (existsb short_line rows = true ->
   (generate_telegraf_config self (CsvRows rows reader_fails)
      output_writable).2 = None) /\
  (generate_telegraf_config self (CsvRows rows true) output_writable).2
    = None /\
  (generate_telegraf_config self (CsvRows rows reader_fails) false).2 = None.
Proof.
  split; [reflexivity|]. rewrite !generate_outcome. cbn [snd].
  split; [|split].
  - intros Hshort.
    destruct (short_line_raises rows (enter_loop self) Hshort) as [e ->].
    reflexivity.
  - destruct (is_ok _); reflexivity.
  - by rewrite andb_false_r.
Qed.

(** X9: when the CSV file exists, the reader yields all its records,
    their cells and the settings are UTF-8 text and the output can be
    written, the configuration built from the nodes of the loop is
    written; its topics are those expected of the records, in order, the
    processed counter grows by their number, and each node's [topic] line
    is in the text with a topic free of [+ # * > $]. *)
Theorem generate_writes_clean_topics self rows :
  forallb cells_utf8 rows = true ->
  settings_utf8 self = true ->
  let stored := nodes (read_rows rows (enter_loop self)).1 in
  let out := generate_telegraf_config self (CsvRows rows false) true in
  out.2 = Some (concat (build_config out.1 stored)) /\
  map mqtt_topic stored = omap expected_topic rows /\
  Self._total_nodes_processed out.1 =
    (Self._total_nodes_processed self + length stored)%nat /\
  Forall (fun n =>
            Py.contains (tpl "  topic = `" ++ mqtt_topic n ++ tpl "`")
              (concat (build_config out.1 stored)) = true /\
            forall c, c ∈ mqtt_topic n -> c ∉ exclusion_characters)
    stored.
Proof.
  intros Hrows Hself. cbv zeta. rewrite generate_outcome. cbn [fst snd].
  destruct (read_rows_summary rows (enter_loop self))
    as (new & Hnodes & Htotal & _ & Hnew & Hutf).
  destruct (Hutf (cells_utf8_node_id rows Hrows)) as [Hok _].
  destruct (read_rows_exact rows (enter_loop self)) as (Htopics & _ & _ & Hall).
  pose proof (read_rows_nodes_utf8 rows (enter_loop self) Hrows eq_refl)
    as Hstored.
  rewrite (build_config_utf8
             (leave_loop self (read_rows rows (enter_loop self)).1) _
             Hself Hstored), Hok.
  cbn [is_ok negb andb].
  split; [reflexivity|].
  split; [by rewrite Htopics, (proj1 Hall Hok)|].
  change (nodes (enter_loop self)) with (@nil node) in Hnodes.
  split; [by rewrite Hnodes|].
  apply Forall_forall. intros n Hn.
  split; [by apply topic_line_in_config|].
  rewrite Hnodes in Hn. rewrite Forall_forall in Hnew.
  destruct (Hnew n Hn) as (valid & Hvalid & Htopic).
  apply no_exclusion_character.
  by destruct (stored_topic_shape _ _ _ Hvalid Htopic).
Qed.

(** X10: [__init__] raises [ValueError] exactly when one of the two paths
    is empty.  On the object it returns otherwise, after
    [generate_telegraf_config] on an existing file the processed counter
    is the number of records read that have a topic to store, the
    sanitized counter is the number of records read whose candidate
    failed validation and is no larger, and a text that is written is
    built from the nodes of the loop, whose topics are those expected of
    all the records. *)
Theorem fresh_generator_counts
    (csv_file_path output_file_path mqtt_broker opcua_endpoint
     influxdb_url : str) :
  (init csv_file_path output_file_path mqtt_broker opcua_endpoint
     influxdb_url = Raise ValueError <->
   csv_file_path = [] \/ output_file_path = []) /\
  forall self rows (reader_fails output_writable : bool),
    init csv_file_path output_file_path mqtt_broker opcua_endpoint
      influxdb_url = Ok self ->
    let stored := nodes (read_rows rows (enter_loop self)).1 in
    let out :=
      generate_telegraf_config self (CsvRows rows reader_fails)
        output_writable in
    Self._total_nodes_processed out.1 =
      length (omap expected_topic (rows_read rows)) /\
    Self._topics_sanitized out.1 =
      length (filter (fun row => candidate_fails row = true)
                (rows_read rows)) /\
    (Self._topics_sanitized out.1 <= Self._total_nodes_processed out.1)%nat /\
    length stored = Self._total_nodes_processed out.1 /\
    forall text,
      out.2 = Some text ->
      text = concat (build_config out.1 stored) /\
      map mqtt_topic stored = omap expected_topic rows.
Proof.
  unfold init. split.
  - repeat case_bool_decide; split; intros Hcase; try done; auto;
      by destruct Hcase.
  - intros self rows reader_fails output_writable Hinit.
    assert (Self._total_nodes_processed self = 0%nat /\
            Self._topics_sanitized self = 0%nat) as [Htotal0 Htopics0].
    { repeat case_bool_decide; try done. by injection Hinit as <-. }
    clear Hinit. cbv zeta. rewrite generate_outcome. cbn [fst snd].
    destruct (read_rows_summary rows (enter_loop self))
      as (new & Hnodes & Htotal & Htopics & _).
    destruct (read_rows_exact rows (enter_loop self))
      as (Hexp & Htotal' & Htopics' & Hall).
    change (nodes (enter_loop self)) with (@nil node) in Hnodes, Hexp.
    change (_total_nodes_processed (enter_loop self))
      with (Self._total_nodes_processed self) in Htotal, Htotal'.
    change (_topics_sanitized (enter_loop self))
      with (Self._topics_sanitized self) in Htopics, Htopics'.
    rewrite Htotal0 in Htotal, Htotal'. rewrite Htopics0 in Htopics, Htopics'.
    pose proof (length_filter (fun n => candidate_rejected n = true) new)
      as Hle.
    unfold leave_loop at 1 2 3 4 5.
    cbn [Self._total_nodes_processed Self._topics_sanitized].
    split; [by rewrite Htotal'|]. split; [by rewrite Htopics'|].
    split; [rewrite Htotal, Htopics; lia|].
    split; [by rewrite Hnodes, Htotal|].
    intros text Htext.
    match type of Htext with
    | (if ?c then _ else _) = _ => destruct c eqn:Hc; [|discriminate Htext]
    end.
    injection Htext as <-. split; [reflexivity|].
    rewrite !andb_true_iff in Hc. destruct Hc as [[[Hok _] _] _].
    assert ((read_rows rows (enter_loop self)).2 = Ok ()) as Hr.
    { by destruct (read_rows rows (enter_loop self)).2 as [[]|e]. }
    by rewrite Hexp, (proj1 Hall Hr).
Qed.

End Generate.

(** ** The two methods on concatenations and on a leading dollar *)

Section Composition.

Implicit Types (s t : str) (c : N).

Lemma utf8_len_app s t :
  utf8_len (s ++ t) = n ← utf8_len s; m ← utf8_len t; Ok (n + m)%nat.
Proof.
  induction s as [|c s IH].
  - simpl. change (utf8_len []) with (@Ok nat 0%nat). simpl.
    by destruct (utf8_len t).
  - change ((c :: s) ++ t) with (c :: (s ++ t)).
    rewrite !utf8_len_cons, IH.
    destruct (result_map length (Py.encode_char c)) as [k|]; simpl; [|done].
    destruct (utf8_len s) as [n|]; simpl; [|done].
    destruct (utf8_len t) as [m|]; simpl; [|done].
    by rewrite Nat.add_assoc.
Qed.

Lemma slash_count_app s t :
  slash_count (s ++ t) = (slash_count s + slash_count t)%nat.
Proof. unfold slash_count. by rewrite filter_app, length_app. Qed.

(** X11: no topic that starts with [$] is accepted, reserved prefix or
    not, and none is raised on; sanitizing such a topic turns the [$]
    into [_] and goes on with the rest. *)
Theorem leading_dollar_never_kept s :
  Py.startswith s (py "$") = true ->
  validate_mqtt_topic s = Ok false /\
  sanitize_mqtt_topic s = py "_" ++ sanitize_mqtt_topic (drop 1 s).
Proof.
  change (py "$") with [36]. rewrite startswith_single.
  destruct s as [|c s]; [done|]. intros ->%N.eqb_eq.
  split.
  - by rewrite validate_closed_form.
  - by rewrite !sanitize_closed_form.
Qed.

(** X12: sanitizing goes character by character: it keeps the number of
    characters and distributes over concatenation, so the sanitized
    candidate of an identifier is the candidate of the sanitized
    identifier. *)
Theorem sanitize_concatenation s t :
  sanitize_mqtt_topic (s ++ t) =
    sanitize_mqtt_topic s ++ sanitize_mqtt_topic t /\
  length (sanitize_mqtt_topic s) = length s /\
  sanitize_mqtt_topic (candidate_topic s) =
    candidate_topic (sanitize_mqtt_topic s).
Proof.
  rewrite !sanitize_closed_form. unfold replace_exclusion_characters.
  split; [apply map_app|]. split; [apply length_map|].
  unfold candidate_topic. by rewrite map_app.
Qed.

(** X13: if a concatenation is accepted, so is each of its two parts: a
    candidate topic is only valid when its identifier alone is. *)
Theorem validate_concatenation s t :
  validate_mqtt_topic (s ++ t) = Ok true ->
  validate_mqtt_topic s = Ok true /\ validate_mqtt_topic t = Ok true.
Proof.
  rewrite !validate_closed_form, existsb_app, utf8_len_app, slash_count_app.
  destruct (existsb is_exclusion_character s) eqn:Hs; [by cbn [orb]|].
  destruct (existsb is_exclusion_character t) eqn:Ht; [by cbn [orb]|].
  rewrite (no_exclusion_no_leading_dollar s), (no_exclusion_no_leading_dollar t)
    by done.
  cbn [orb].
  destruct (leading_dollar_unreserved (s ++ t)); [done|].
  destruct (utf8_len s) as [n|]; [|done].
  destruct (utf8_len t) as [m|]; [|done]. simpl.
  destruct (Nat.ltb_spec 250 (n + m)); [done|].
  destruct (Nat.ltb_spec 128 (S (slash_count s + slash_count t))); [done|].
  intros _.
  destruct (Nat.ltb_spec 250 n), (Nat.ltb_spec 250 m),
    (Nat.ltb_spec 128 (S (slash_count s))),
    (Nat.ltb_spec 128 (S (slash_count t))); try lia; done.
Qed.

(** X14: sanitizing is not one-to-one: a topic with an exclusion
    character and the same topic with [_] in its place are different
    strings with the same sanitized form, so two identifiers that differ
    only there are given the same topic. *)
Theorem sanitize_collisions s t c :
  c ∈ exclusion_characters ->
  s ++ c :: t <> s ++ 95 :: t /\
  sanitize_mqtt_topic (s ++ c :: t) = sanitize_mqtt_topic (s ++ 95 :: t) /\
  sanitize_mqtt_topic (candidate_topic (s ++ c :: t)) =
    sanitize_mqtt_topic (candidate_topic (s ++ 95 :: t)).
Proof.
  intros Hc%is_exclusion_character_iff.
  assert (sanitize_mqtt_topic (s ++ c :: t) =
          sanitize_mqtt_topic (s ++ 95 :: t)) as Hsame.
  { rewrite !sanitize_closed_form. unfold replace_exclusion_characters.
    rewrite !map_app. cbn [map]. unfold underscore_if_excluded at 2 5.
    by rewrite Hc. }
  split; [|split; [done|]].
  - intros Heq%app_inv_head. injection Heq as ->. done.
  - unfold candidate_topic.
    rewrite !sanitize_closed_form in *. unfold replace_exclusion_characters in *.
    rewrite (map_app _ _ (s ++ c :: t)), (map_app _ _ (s ++ 95 :: t)).
    by rewrite Hsame.
Qed.

End Composition.

(** ** The properties above on concrete records *)

Section ConcreteRecords.

Lemma short_line_aborts_witness :
  exists st1,
    read_rows [csv_record "ns=2;s=Temp#1" "Temp"] initial_state =
      (st1, Ok ()) /\
    read_rows ([csv_record "ns=2;s=Temp#1" "Temp"]
               ++ csv_short_record :: [csv_record "ns=3;s=a+b" "Sum"])
      initial_state = (st1, Raise AttributeError).
Proof.
  eexists. split; [vm_compute; reflexivity|].
  apply short_line_aborts; vm_compute; reflexivity.
Defined.

Lemma process_row_well_formed_witness :
  exists valid,
    validate_mqtt_topic (candidate_topic (py "Line1/Temp")) = Ok valid /\
    nodes (process_row (csv_record "ns=2;s=Line1/Temp" "Line 1")
             initial_state).1 =
    [ {| node_id := CellStr (py "ns=2;s=Line1/Temp");
         custom_name := CellStr (py "Line 1");
         namespace := py "2";
         identifier := py "Line1/Temp";
         identifier_type := py "s";
         mqtt_topic :=
           if valid then candidate_topic (py "Line1/Temp")
           else sanitize_mqtt_topic (candidate_topic (py "Line1/Temp")) |} ].
Proof.
  destruct (process_row_well_formed
              (csv_record "ns=2;s=Line1/Temp" "Line 1") initial_state
              (py "2") (py "Line1/Temp") (CellStr (py "Line 1")))
    as (valid & Hvalid & Hrow).
  - vm_compute. reflexivity.
  - vm_compute. reflexivity.
  - repeat (apply not_elem_of_cons; split; [done|]). apply not_elem_of_nil.
  - repeat (apply not_elem_of_cons; split; [done|]). apply not_elem_of_nil.
  - reflexivity.
  - reflexivity.
  - reflexivity.
  - exists valid. split; [exact Hvalid|]. rewrite Hrow. reflexivity.
Defined.

Lemma utf8_rows_never_raise_witness :
  (read_rows [csv_record "ns=2;s=Line1/Temp" "Line 1";
              csv_record "ns=2;s=Temp#1" "Temp";
              csv_record "ns=2" "Bad"] initial_state).2 = Ok ().
Proof.
  refine (proj1 (utf8_rows_never_raise _ initial_state _)).
  vm_compute. reflexivity.
Defined.


Lemma short_line_writes_nothing_witness :
  (generate_telegraf_config hardcoded_generator
     (CsvRows [csv_record "ns=2;s=Temp#1" "Temp"; csv_short_record] false)
     true).2 = None.
Proof.
  refine (proj1 (proj2 (short_line_writes_nothing hardcoded_generator
                          [csv_record "ns=2;s=Temp#1" "Temp"; csv_short_record]
                          false true)) _).
  vm_compute. reflexivity.
Defined.

Lemma generate_writes_clean_topics_witness :
  (generate_telegraf_config hardcoded_generator
     (CsvRows sample_rows false) true).2 =
  Some (concat
          (build_config
             (generate_telegraf_config hardcoded_generator
                (CsvRows sample_rows false) true).1
             (nodes (read_rows sample_rows
                       (enter_loop hardcoded_generator)).1))) /\
  map mqtt_topic
    (nodes (read_rows sample_rows (enter_loop hardcoded_generator)).1) =
  omap expected_topic sample_rows /\
  Self._total_nodes_processed
    (generate_telegraf_config hardcoded_generator
       (CsvRows sample_rows false) true).1 =
  (Self._total_nodes_processed hardcoded_generator +
   length (nodes (read_rows sample_rows
                    (enter_loop hardcoded_generator)).1))%nat /\
  Forall (fun n =>
            Py.contains (tpl "  topic = `" ++ mqtt_topic n ++ tpl "`")
              (concat
                 (build_config
                    (generate_telegraf_config hardcoded_generator
                       (CsvRows sample_rows false) true).1
                    (nodes (read_rows sample_rows
                              (enter_loop hardcoded_generator)).1))) = true /\
            forall c, c ∈ mqtt_topic n -> c ∉ exclusion_characters)
    (nodes (read_rows sample_rows (enter_loop hardcoded_generator)).1).
Proof.
  apply (generate_writes_clean_topics hardcoded_generator sample_rows);
    vm_compute; reflexivity.
Defined.

Lemma fresh_generator_counts_witness :
  Self._total_nodes_processed
    (generate_telegraf_config hardcoded_generator
       (CsvRows sample_rows false) true).1 =
  length (omap expected_topic (rows_read sample_rows)) /\
  Self._topics_sanitized
    (generate_telegraf_config hardcoded_generator
       (CsvRows sample_rows false) true).1 =
  length (filter (fun row => candidate_fails row = true)
            (rows_read sample_rows)) /\
  (Self._topics_sanitized
     (generate_telegraf_config hardcoded_generator
        (CsvRows sample_rows false) true).1 <=
   Self._total_nodes_processed
     (generate_telegraf_config hardcoded_generator
        (CsvRows sample_rows false) true).1)%nat /\
  length (nodes (read_rows sample_rows (enter_loop hardcoded_generator)).1) =
  Self._total_nodes_processed
    (generate_telegraf_config hardcoded_generator
       (CsvRows sample_rows false) true).1 /\
  forall text,
    (generate_telegraf_config hardcoded_generator
       (CsvRows sample_rows false) true).2 = Some text ->
    text =
    concat
      (build_config
         (generate_telegraf_config hardcoded_generator
            (CsvRows sample_rows false) true).1
         (nodes (read_rows sample_rows (enter_loop hardcoded_generator)).1)) /\
    map mqtt_topic
      (nodes (read_rows sample_rows (enter_loop hardcoded_generator)).1) =
    omap expected_topic sample_rows.
Proof.
  apply (proj2 (fresh_generator_counts
                  (py "nodes_output_new.csv") (py "telegraf.conf")
                  (py "tcp://mosquitto:1883")
                  (py "opc.tcp://100.94.111.58:4841")
                  (py "http://64.226.126.250:8086"))
           hardcoded_generator sample_rows false true).
  reflexivity.
Defined.

Lemma leading_dollar_never_kept_witness :
  validate_mqtt_topic (py "$share/group/topic") = Ok false /\
  sanitize_mqtt_topic (py "$share/group/topic") =
    py "_" ++ sanitize_mqtt_topic (drop 1 (py "$share/group/topic")).
Proof. exact (leading_dollar_never_kept (py "$share/group/topic") eq_refl). Defined.

Lemma sanitize_collisions_witness :
  py "a+b" <> py "a_b" /\
  sanitize_mqtt_topic (candidate_topic (py "a+b")) =
    sanitize_mqtt_topic (candidate_topic (py "a_b")).
Proof.
  destruct (sanitize_collisions (py "a") (py "b") 43) as (Hne & _ & Hsame).
  - apply is_exclusion_character_iff. reflexivity.
  - split; [exact Hne | exact Hsame].
Defined.

Lemma validate_concatenation_witness :
  validate_mqtt_topic (py "telegraf/opcua/") = Ok true /\
  validate_mqtt_topic (py "Temp_1") = Ok true.
Proof.
  exact (validate_concatenation (py "telegraf/opcua/") (py "Temp_1") eq_refl).
Defined.

(** [main] passes non-empty paths, so [__init__] returns the object. *)
Example init_hardcoded :
  init (py "nodes_output_new.csv") (py "telegraf.conf")
    (py "tcp://mosquitto:1883") (py "opc.tcp://100.94.111.58:4841")
    (py "http://64.226.126.250:8086") = Ok hardcoded_generator.
Proof. reflexivity. Qed.

(** [replace('s=', '')] takes out every [s=], not only the leading one. *)
Example identifier_inner_marker :
  map identifier
    (nodes (process_row (csv_record "ns=2;s=Process=1" "P") initial_state).1) =
  [py "Proces1"].
Proof. vm_compute. reflexivity. Qed.

(** The MQTT stanza of one node, as it lands in the file. *)
Example mqtt_output_stanza_text :
  mqtt_output_stanza hardcoded_generator
    {| node_id := CellStr (py "ns=2;s=Temp#1");
       custom_name := CellStr (py "Temp");
       namespace := py "2";
       identifier := py "Temp#1";
       identifier_type := py "s";
       mqtt_topic := py "telegraf/opcua/Temp_1" |} =
  tpl "# MQTT Output for Node: Temp#1
[[outputs.mqtt]]
  servers = [`tcp://mosquitto:1883`] # Replace with your MQTT broker address
  topic = `telegraf/opcua/Temp_1`
  tagpass = { id = [`ns=2;s=Temp#1`] }
  qos = 0
  retain = false
  data_format = `json`
".
Proof. vm_compute. reflexivity. Qed.

End ConcreteRecords.
